(** * Bayanihan weather dashboard (app.py): page renderer and feed proxy

  A shallow embedding of [app.py]: the registrations made on the
  application object at import time, the page handler [main_page] and
  the feed handler [pagasa_proxy], together with the parts of the Python
  runtime the handlers lean on (strict UTF-8 decoding, the exception
  hierarchy consulted by [except Exception], and [urllib.request]). *)

From Stdlib Require Import ZArith Lia List.
From Stdlib.Strings Require Import Byte Ascii.
From stdpp Require Import base option strings gmap list.

Local Open Scope Z_scope.
Set Warnings "-register-all".

(** ** Python [bytes] and [str] *)

(** [bytes] is a sequence of octets, [str] a sequence of Unicode code
  points. *)
Definition bytes := list byte.
Definition str := list Z.

Module Utf8.

Definition Z_of_byte (c : byte) : Z := Z.of_N (Byte.to_N c).

(** The C cast [(char) z]: keep the low eight bits. *)
Definition byte_of_Z (z : Z) : byte :=
  match Byte.of_N (Z.to_N (z mod 256)) with
  | Some c => c
  | None => x00
  end.

(** A continuation byte has the bit pattern [10xxxxxx]. *)
Definition is_cont (b : Z) : bool := Z.land b 0xC0 =? 0x80.

Definition cp2 (b0 b1 : Z) : Z :=
  Z.lor (Z.shiftl (Z.land b0 0x1F) 6) (Z.land b1 0x3F).

Definition cp3 (b0 b1 b2 : Z) : Z :=
  Z.lor (Z.lor (Z.shiftl (Z.land b0 0x0F) 12)
               (Z.shiftl (Z.land b1 0x3F) 6))
        (Z.land b2 0x3F).

Definition cp4 (b0 b1 b2 b3 : Z) : Z :=
  Z.lor (Z.lor (Z.lor (Z.shiftl (Z.land b0 0x07) 18)
                      (Z.shiftl (Z.land b1 0x3F) 12))
               (Z.shiftl (Z.land b2 0x3F) 6))
        (Z.land b3 0x3F).

(** Second byte of a three-byte sequence: [E0] must not start an
    overlong form, [ED] must not start a surrogate. *)
Definition second_of_3 (b0 b1 : Z) : bool :=
  is_cont b1
  && (if b0 =? 0xE0 then 0xA0 <=? b1 else true)
  && (if b0 =? 0xED then b1 <? 0xA0 else true).

(** Second byte of a four-byte sequence: [F0] must not start an overlong
    form, [F4] must stay below U+110000. *)
Definition second_of_4 (b0 b1 : Z) : bool :=
  is_cont b1
  && (if b0 =? 0xF0 then 0x90 <=? b1 else true)
  && (if b0 =? 0xF4 then b1 <? 0x90 else true).

(** [data.decode('utf-8')] with the default [errors='strict']: [None]
    stands for [UnicodeDecodeError].  Lead bytes [80..C1] and [F5..FF]
    are rejected, as is a sequence cut short by the end of the input. *)
Fixpoint decode (data : bytes) : option str :=
  match data with
  | [] => Some []
  | c0 :: r0 =>
      let b0 := Z_of_byte c0 in
      if b0 <? 0x80 then cons b0 <$> decode r0
      else if b0 <? 0xC2 then None
      else if b0 <? 0xE0 then
        match r0 with
        | c1 :: r1 =>
            let b1 := Z_of_byte c1 in
            if is_cont b1 then cons (cp2 b0 b1) <$> decode r1 else None
        | _ => None
        end
      else if b0 <? 0xF0 then
        match r0 with
        | c1 :: c2 :: r2 =>
            let b1 := Z_of_byte c1 in
            let b2 := Z_of_byte c2 in
            if second_of_3 b0 b1 && is_cont b2
            then cons (cp3 b0 b1 b2) <$> decode r2 else None
        | _ => None
        end
      else if b0 <? 0xF5 then
        match r0 with
        | c1 :: c2 :: c3 :: r3 =>
            let b1 := Z_of_byte c1 in
            let b2 := Z_of_byte c2 in
            let b3 := Z_of_byte c3 in
            if second_of_4 b0 b1 && is_cont b2 && is_cont b3
            then cons (cp4 b0 b1 b2 b3) <$> decode r3 else None
        | _ => None
        end
      else None
  end.

(** One code point to its UTF-8 octets. *)
Definition encode_cp (ch : Z) : bytes :=
  if ch <? 0x80 then [byte_of_Z ch]
  else if ch <? 0x800 then
    [byte_of_Z (Z.lor 0xC0 (Z.shiftr ch 6));
     byte_of_Z (Z.lor 0x80 (Z.land ch 0x3F))]
  else if ch <? 0x10000 then
    [byte_of_Z (Z.lor 0xE0 (Z.shiftr ch 12));
     byte_of_Z (Z.lor 0x80 (Z.land (Z.shiftr ch 6) 0x3F));
     byte_of_Z (Z.lor 0x80 (Z.land ch 0x3F))]
  else
    [byte_of_Z (Z.lor 0xF0 (Z.shiftr ch 18));
     byte_of_Z (Z.lor 0x80 (Z.land (Z.shiftr ch 12) 0x3F));
     byte_of_Z (Z.lor 0x80 (Z.land (Z.shiftr ch 6) 0x3F));
     byte_of_Z (Z.lor 0x80 (Z.land ch 0x3F))].

(** [text.encode('utf-8')], the octets a [str] is sent as.  Python's
    encoder refuses surrogates; on scalar values it is this function. *)
Definition encode (text : str) : bytes := concat (map encode_cp text).

(** A Unicode scalar value: a code point that is no surrogate. *)
Definition scalar (ch : Z) : Prop :=
  0 <= ch < 0xD800 \/ 0xE000 <= ch < 0x110000.

End Utf8.

(** ** Python exceptions *)

Module Py.

(** The exception classes that can reach the handler, with the two
    [BaseException]-only classes that [except Exception] lets through. *)
Inductive exn_class :=
| BaseException | KeyboardInterrupt | SystemExit
| Exception
| OSError | TimeoutError | ConnectionError | ConnectionResetError
| URLError | HTTPError
| HTTPException | IncompleteRead
| ValueError | UnicodeError | UnicodeDecodeError.

#[global] Instance exn_class_eq_dec : EqDecision exn_class.
Proof. solve_decision. Defined.

(** The direct base class ([None] at the root). *)
Definition base (c : exn_class) : option exn_class :=
  match c with
  | BaseException => None
  | KeyboardInterrupt | SystemExit | Exception => Some BaseException
  | OSError | HTTPException | ValueError => Some Exception
  | TimeoutError | ConnectionError | URLError => Some OSError
  | ConnectionResetError => Some ConnectionError
  | HTTPError => Some URLError
  | IncompleteRead => Some HTTPException
  | UnicodeError => Some ValueError
  | UnicodeDecodeError => Some UnicodeError
  end.

(** [issubclass c d], walking up the base classes; the hierarchy above is
    five levels deep. *)
Fixpoint issubclass_upto (depth : nat) (c d : exn_class) : bool :=
  bool_decide (c = d)
  || match depth, base c with
     | S depth', Some c' => issubclass_upto depth' c' d
     | _, _ => false
     end.

Definition issubclass : exn_class -> exn_class -> bool :=
  issubclass_upto 5.

(** Exception values, with the attributes that tell them apart. *)
Inductive exn :=
| URLError_ (reason : string)
| HTTPError_ (code : Z) (msg : string)
| TimeoutError_
| ConnectionResetError_
| IncompleteRead_ (partial : bytes)
| UnicodeDecodeError_ (encoding : string) (object : bytes)
| KeyboardInterrupt_.

Definition type (e : exn) : exn_class :=
  match e with
  | URLError_ _ => URLError
  | HTTPError_ _ _ => HTTPError
  | TimeoutError_ => TimeoutError
  | ConnectionResetError_ => ConnectionResetError
  | IncompleteRead_ _ => IncompleteRead
  | UnicodeDecodeError_ _ _ => UnicodeDecodeError
  | KeyboardInterrupt_ => KeyboardInterrupt
  end.

Definition isinstance (e : exn) (c : exn_class) : bool :=
  issubclass (type e) c.

(** A statement either completes with a value or raises. *)
Inductive outcome (A : Type) :=
| Returns (a : A)
| Raises (e : exn).
#[global] Arguments Returns {A} a.
#[global] Arguments Raises {A} e.

End Py.

(** ** Syqlorix documents *)

Module Dom.

(** A keyword argument of a tag is a string or a flag ([crossorigin=True]). *)
Inductive attr_value :=
| AStr (s : string)
| ABool (b : bool).

(** [tag(child, ..., key=value, ...)] builds an element from its positional
    children and keyword attributes, kept in the order written; a bare
    string among the children is text. *)
Inductive Node :=
| Element (tag : string) (children : list Node)
          (attributes : list (string * attr_value))
| Text (s : string)
| Comment (s : string).

End Dom.

(** ** urllib.request, the network and the console *)

Module Urllib.

(** [urllib.request.Request]: only the fields the handler touches. *)
Record Request := {
  full_url : string;
  data : option bytes;
  headers : gmap string string
}.

Definition Request_new (url : string) : Request :=
  {| full_url := url; data := None; headers := ∅ |}.

Definition upper (c : ascii) : ascii :=
  let n := nat_of_ascii c in
  if ((97 <=? n) && (n <=? 122))%nat then ascii_of_nat (n - 32) else c.

Definition lower (c : ascii) : ascii :=
  let n := nat_of_ascii c in
  if ((65 <=? n) && (n <=? 90))%nat then ascii_of_nat (n + 32) else c.

Fixpoint lowercase (s : string) : string :=
  match s with
  | EmptyString => EmptyString
  | String c r => String (lower c) (lowercase r)
  end.

(** [key.capitalize()] on an ASCII header name. *)
Definition capitalize (s : string) : string :=
  match s with
  | EmptyString => EmptyString
  | String c r => String (upper c) (lowercase r)
  end.

(** [Request.add_header] files the value under [key.capitalize()]. *)
Definition add_header (key val : string) (req : Request) : Request :=
  {| full_url := full_url req;
     data := data req;
     headers := <[capitalize key := val]> (headers req) |}.

(** [Request.get_method]: GET unless a body was attached. *)
Definition get_method (req : Request) : string :=
  match data req with
  | None => "GET"
  | Some _ => "POST"
  end.

(** What reading the response body can end in. *)
Inductive read_failure :=
| ReadTimedOut
| ReadReset
| ReadIncomplete (partial : bytes).

Inductive read_outcome :=
| ReadOk (body : bytes)
| ReadFails (f : read_failure).

(** What one outbound exchange can end in: no response at all (name
    resolution, refused or timed-out connection, TLS), or the final
    response after urllib has followed redirects. *)
Inductive transport :=
| Unreachable (reason : string)
| Responded (status : Z) (reason : string) (content_type : string)
            (body : read_outcome).

(** The object [urlopen] hands back. *)
Record HTTPResponse := {
  resp_status : Z;
  resp_content_type : string;
  resp_body : read_outcome
}.

Definition exn_of_read_failure (f : read_failure) : Py.exn :=
  match f with
  | ReadTimedOut => Py.TimeoutError_
  | ReadReset => Py.ConnectionResetError_
  | ReadIncomplete partial => Py.IncompleteRead_ partial
  end.

(** The network answers the [n]-th outbound call of the process. *)
Definition network := nat -> transport.

End Urllib.

(** ** The application object and the world a handler runs in *)

Module Syqlorix.

(** The two functions of app.py that are registered as handlers. *)
Inductive handler_ref :=
| main_page_ref
| pagasa_proxy_ref.

#[global] Instance handler_ref_eq_dec : EqDecision handler_ref.
Proof. solve_decision. Defined.

(** Modelled from the spec: the registrations kept by the application
    object (the Syqlorix package is not part of this repository).  A
    route-table entry is a (path, handler) pair; [route] appends one.
    [proxy] records a development mapping from a path to a target URL,
    which is no route-table entry. *)
Record App := {
  routes : list (string * handler_ref);
  dev_proxies : gmap string string
}.

Definition new : App := {| routes := []; dev_proxies := ∅ |}.

Definition route (path : string) (h : handler_ref) (a : App) : App :=
  {| routes := routes a ++ [(path, h)]; dev_proxies := dev_proxies a |}.

Definition proxy (path target : string) (a : App) : App :=
  {| routes := routes a; dev_proxies := <[path := target]> (dev_proxies a) |}.

(** The inbound request object passed to a handler. *)
Record request := {
  method : string;
  path : string;
  query_params : list (string * string);
  req_headers : list (string * string);
  req_body : bytes
}.

(** What a handler may hand back: a [str], a [dict] or a document, bare
    or in a tuple with a status and possibly a headers [dict]. *)
Inductive value :=
| VStr (s : str)
| VDict (d : gmap string string)
| VDocument (n : Dom.Node).

Inductive returned :=
| Bare (v : value)
| Pair (v : value) (status : Z)
| Triple (v : value) (status : Z) (hdrs : gmap string string).

(** The reply put on the wire. *)
Record response := {
  status : Z;
  content_type : option string;
  body : value
}.

(** Modelled from the spec: what the host framework makes of a handler's
    return value (its server is not part of this repository).  A tuple's
    components pass through unchanged; a bare document is served with
    status 200 and content type text/html. *)
Definition respond (r : returned) : response :=
  match r with
  | Bare v =>
      {| status := 200; content_type := Some "text/html"; body := v |}
  | Pair v st =>
      {| status := st; content_type := None; body := v |}
  | Triple v st hdrs =>
      {| status := st; content_type := hdrs !! "Content-Type"; body := v |}
  end.

End Syqlorix.

Module Run.
Import Urllib.

(** [print(f"<literal>{e}")]: the literal part and the exception whose
    [str] follows it. *)
Inductive line := FString (literal : string) (e : Py.exn).

(** Everything a handler can reach: the application object, the requests
    handed to [urlopen] so far, and the console. *)
Record World := {
  app : Syqlorix.App;
  outbound : list Request;
  stdout : list line
}.

(** Handler code: reads the network, threads the world, may raise. *)
Definition M (A : Type) : Type :=
  network -> World -> Py.outcome A * World.

#[global] Instance M_ret : MRet M :=
  fun A a _ w => (Py.Returns a, w).

#[global] Instance M_bind : MBind M :=
  fun A B f m net w =>
    match m net w with
    | (Py.Returns a, w') => f a net w'
    | (Py.Raises e, w') => (Py.Raises e, w')
    end.

Definition raise {A} (e : Py.exn) : M A :=
  fun _ w => (Py.Raises e, w).

(** [try: body / except cls as e: handler e]. *)
Definition try_except {A} (body : M A) (cls : Py.exn_class)
    (handler : Py.exn -> M A) : M A :=
  fun net w =>
    match body net w with
    | (Py.Returns a, w') => (Py.Returns a, w')
    | (Py.Raises e, w') =>
        if Py.isinstance e cls then handler e net w'
        else (Py.Raises e, w')
    end.

(** [urllib.request.urlopen(req)]: one exchange with the network.  Any
    final status outside 200..299 is raised as [HTTPError]. *)
Definition urlopen (req : Request) : M HTTPResponse :=
  fun net w =>
    let w' := {| app := app w;
                 outbound := outbound w ++ [req];
                 stdout := stdout w |} in
    match net (length (outbound w)) with
    | Unreachable reason => (Py.Raises (Py.URLError_ reason), w')
    | Responded st reason ct b =>
        if (200 <=? st) && (st <? 300)
        then (Py.Returns {| resp_status := st;
                            resp_content_type := ct;
                            resp_body := b |}, w')
        else (Py.Raises (Py.HTTPError_ st reason), w')
    end.

(** [response.read()]. *)
Definition read (r : HTTPResponse) : M bytes :=
  match resp_body r with
  | ReadOk b => mret b
  | ReadFails f => raise (exn_of_read_failure f)
  end.

(** [data.decode('utf-8')]. *)
Definition decode_utf8 (b : bytes) : M str :=
  match Utf8.decode b with
  | Some text => mret text
  | None => raise (Py.UnicodeDecodeError_ "utf-8" b)
  end.

Definition print (l : line) : M () :=
  fun _ w =>
    (Py.Returns (),
     {| app := app w; outbound := outbound w; stdout := stdout w ++ [l] |}).

End Run.

(** ** app.py *)

Module App.
Import Dom Urllib Syqlorix Run.

(** The document [main_page] returns: the literal tree of app.py, tag by
    tag, with keyword names as written there. *)
Definition page : Node :=
  Element "Syqlorix" [
    Element "head" [
      Element "meta" [] [("charset", AStr "UTF-8")];
      Element "meta" [] [("name", AStr "viewport"); ("content", AStr "width=device-width, initial-scale=1.0")];
      Element "meta" [] [("name", AStr "description"); ("content", AStr "Real-time PAGASA weather alerts and flood advisories for the Philippines. Stay informed about typhoons, floods, and severe weather conditions.")];
      Element "meta" [] [("name", AStr "keywords"); ("content", AStr "PAGASA, weather alerts, Philippines, typhoon, flood advisory, disaster preparedness")];
      Element "meta" [] [("name", AStr "author"); ("content", AStr "Bayanihan Weather Alert System")];
      Comment "Open Graph Meta Tags";
      Element "meta" [] [("property", AStr "og:title"); ("content", AStr "Bayanihan Weather Alert Dashboard")];
      Element "meta" [] [("property", AStr "og:description"); ("content", AStr "Real-time PAGASA weather alerts and flood advisories for the Philippines")];
      Element "meta" [] [("property", AStr "og:type"); ("content", AStr "website")];
      Element "meta" [] [("property", AStr "og:image"); ("content", AStr "https://via.placeholder.com/1200x630/1e40af/ffffff?text=Bayanihan+Weather+Alert")];
      Comment "Twitter Card Meta Tags";
      Element "meta" [] [("name", AStr "twitter:card"); ("content", AStr "summary_large_image")];
      Element "meta" [] [("name", AStr "twitter:title"); ("content", AStr "Bayanihan Weather Alert Dashboard")];
      Element "meta" [] [("name", AStr "twitter:description"); ("content", AStr "Real-time PAGASA weather alerts and flood advisories for the Philippines")];
      Element "meta" [] [("name", AStr "twitter:image"); ("content", AStr "https://via.placeholder.com/1200x630/1e40af/ffffff?text=Bayanihan+Weather+Alert")];
      Element "title" [
        Text "Bayanihan Weather Alert Dashboard | Real-time PAGASA Alerts"
      ] [];
      Comment "Favicon";
      Element "link" [] [("rel", AStr "icon"); ("type", AStr "image/svg+xml"); ("href", AStr "data:image/svg+xml,<svg xmlns='http://www.w3.org/2000/svg' viewBox='0 0 100 100'><text y='.9em' font-size='90'>🌦️</text></svg>")];
      Comment "Fonts";
      Element "link" [] [("rel", AStr "preconnect"); ("href", AStr "https://fonts.googleapis.com")];
      Element "link" [] [("rel", AStr "preconnect"); ("href", AStr "https://fonts.gstatic.com"); ("crossorigin", ABool true)];
      Element "link" [] [("href", AStr "https://fonts.googleapis.com/css2?family=Inter:wght@400;500;600;700&display=swap"); ("rel", AStr "stylesheet")];
      Comment "Icons";
      Element "link" [] [("rel", AStr "stylesheet"); ("href", AStr "https://cdnjs.cloudflare.com/ajax/libs/font-awesome/6.5.0/css/all.min.css")];
      Comment "Styles";
      Element "link" [] [("rel", AStr "stylesheet"); ("href", AStr "styles.css")];
      Comment "LeafletJS Map CSS";
      Element "link" [] [("rel", AStr "stylesheet"); ("href", AStr "https://unpkg.com/leaflet@1.9.4/dist/leaflet.css"); ("integrity", AStr "sha256-p4NxAoJBhIIN+hmNHrzRCf9tD/miZyoHS5obTRR9BMY="); ("crossorigin", ABool true)];
      Comment "Progressive Web App Manifest";
      Element "link" [] [("rel", AStr "manifest"); ("href", AStr "manifest.json")];
      Element "meta" [] [("name", AStr "theme-color"); ("content", AStr "#1e40af")]
    ] [];
    Element "body" [
      Comment "Skip to Content Link for Accessibility";
      Element "a" [
        Text "Skip to main content"
      ] [("href", AStr "#main-content"); ("class_", AStr "skip-link")];
      Comment "Loading Screen";
      Element "div" [
        Element "div" [
          Element "div" [
            Text "🌦️"
          ] [("class_", AStr "loading-logo")];
          Element "h1" [
            Text "Bayanihan Weather Alert"
          ] [];
          Element "div" [] [("class_", AStr "loading-spinner")];
          Element "p" [
            Text "Loading weather alerts..."
          ] []
        ] [("class_", AStr "loading-content")]
      ] [("id", AStr "loading-screen"); ("class_", AStr "loading-screen")];
      Comment "Header Section";
      Element "header" [
        Element "div" [
          Element "div" [
            Element "div" [
              Element "div" [
                Text "🌦️"
              ] [("class_", AStr "logo-img")];
              Element "div" [
                Element "h1" [
                  Text "Bayanihan Weather Alert"
                ] [("class_", AStr "site-title")];
                Element "p" [
                  Text "Real-time PAGASA Dashboard"
                ] [("class_", AStr "site-subtitle")]
              ] [("class_", AStr "logo-text")]
            ] [("class_", AStr "logo-section")];
            Element "div" [
              Element "div" [
                Element "span" [] [("class_", AStr "status-dot"); ("id", AStr "connection-status")];
                Element "span" [
                  Text "Connecting..."
                ] [("class_", AStr "status-text"); ("id", AStr "status-text")]
              ] [("class_", AStr "status-indicator")];
              Element "div" [
                Element "span" [
                  Text "Last Update:"
                ] [("class_", AStr "update-label")];
                Element "time" [
                  Text "--:--"
                ] [("id", AStr "last-update-time"); ("datetime", ABool true)]
              ] [("class_", AStr "last-update")]
            ] [("class_", AStr "header-status")];
            Element "div" [
              Element "label" [
                Element "input_" [] [("type", AStr "checkbox"); ("id", AStr "dark-mode-toggle")];
                Element "span" [] [("class_", AStr "slider round")]
              ] [("class_", AStr "theme-switch"); ("for_", AStr "dark-mode-toggle")]
            ] [("class_", AStr "theme-switch-wrapper")];
            Element "nav" [
              Element "button" [
                Element "span" [] [("class_", AStr "hamburger")];
                Element "span" [
                  Text "Toggle navigation menu"
                ] [("class_", AStr "sr-only")]
              ] [("class_", AStr "nav-toggle"); ("aria_expanded", AStr "false"); ("aria_controls", AStr "nav-menu"); ("id", AStr "nav-toggle")];
              Element "ul" [
                Element "li" [
                  Element "a" [
                    Text "Dashboard"
                  ] [("href", AStr "#dashboard"); ("class_", AStr "nav-link active")]
                ] [];
                Element "li" [
                  Element "a" [
                    Text "Active Alerts"
                  ] [("href", AStr "#alerts"); ("class_", AStr "nav-link")]
                ] [];
                Element "li" [
                  Element "a" [
                    Text "Map View"
                  ] [("href", AStr "#map"); ("class_", AStr "nav-link")]
                ] [];
                Element "li" [
                  Element "a" [
                    Text "Analytics"
                  ] [("href", AStr "#analytics"); ("class_", AStr "nav-link")]
                ] []
              ] [("class_", AStr "nav-menu"); ("id", AStr "nav-menu")]
            ] [("class_", AStr "main-nav"); ("role", AStr "navigation"); ("aria_label", AStr "Main navigation")]
          ] [("class_", AStr "header-content")]
        ] [("class_", AStr "container")]
      ] [("class_", AStr "header"); ("role", AStr "banner")];
      Comment "Main Content";
      Element "main" [
        Comment "Alert Banner for Critical Alerts";
        Element "div" [
          Element "div" [
            Element "div" [
              Element "div" [
                Text "⚠️"
              ] [("class_", AStr "banner-icon")];
              Element "div" [
                Element "strong" [
                  Text "Critical Weather Alert:"
                ] [];
                Element "span" [
                  Text "Severe weather conditions detected in your area."
                ] [("id", AStr "critical-message")]
              ] [("class_", AStr "banner-text")];
              Element "button" [
                Text "×"
              ] [("class_", AStr "banner-close"); ("aria_label", AStr "Close alert banner"); ("id", AStr "banner-close")]
            ] [("class_", AStr "banner-content")]
          ] [("class_", AStr "container")]
        ] [("class_", AStr "alert-banner"); ("id", AStr "critical-banner"); ("role", AStr "alert"); ("aria_live", AStr "assertive"); ("style", AStr "display: none;")];
        Comment "Dashboard Section";
        Element "section" [
          Element "div" [
            Element "div" [
              Element "h2" [
                Text "Weather Alert Dashboard"
              ] [("class_", AStr "section-title")];
              Element "p" [
                Text "Real-time monitoring of PAGASA weather alerts and flood advisories across the Philippines"
              ] [("class_", AStr "section-description")]
            ] [("class_", AStr "section-header")];
            Comment "Quick Stats";
            Element "div" [
              Comment "ADD THIS NEW CARD";
              Element "div" [
                Element "div" [
                  Element "i" [] [("class_", AStr "fas fa-bell")]
                ] [("class_", AStr "stat-icon total")];
                Element "div" [
                  Element "div" [
                    Text "0"
                  ] [("class_", AStr "stat-number"); ("id", AStr "total-count")];
                  Element "div" [
                    Text "Total Active Alerts"
                  ] [("class_", AStr "stat-label")]
                ] [("class_", AStr "stat-content")]
              ] [("class_", AStr "stat-card")];
              Element "div" [
                Element "div" [
                  Element "i" [] [("class_", AStr "fas fa-exclamation-triangle")]
                ] [("class_", AStr "stat-icon severe")];
                Element "div" [
                  Element "div" [
                    Text "0"
                  ] [("class_", AStr "stat-number"); ("id", AStr "severe-count")];
                  Element "div" [
                    Text "Severe Alerts"
                  ] [("class_", AStr "stat-label")]
                ] [("class_", AStr "stat-content")]
              ] [("class_", AStr "stat-card")];
              Element "div" [
                Element "div" [
                  Element "i" [] [("class_", AStr "fas fa-exclamation-circle")]
                ] [("class_", AStr "stat-icon moderate")];
                Element "div" [
                  Element "div" [
                    Text "0"
                  ] [("class_", AStr "stat-number"); ("id", AStr "moderate-count")];
                  Element "div" [
                    Text "Moderate Alerts"
                  ] [("class_", AStr "stat-label")]
                ] [("class_", AStr "stat-content")]
              ] [("class_", AStr "stat-card")];
              Element "div" [
                Element "div" [
                  Element "i" [] [("class_", AStr "fas fa-info-circle")]
                ] [("class_", AStr "stat-icon minor")];
                Element "div" [
                  Element "div" [
                    Text "0"
                  ] [("class_", AStr "stat-number"); ("id", AStr "minor-count")];
                  Element "div" [
                    Text "Minor Alerts"
                  ] [("class_", AStr "stat-label")]
                ] [("class_", AStr "stat-content")]
              ] [("class_", AStr "stat-card")];
              Element "div" [
                Element "div" [
                  Element "i" [] [("class_", AStr "fas fa-map-marked-alt")]
                ] [("class_", AStr "stat-icon regions")];
                Element "div" [
                  Element "div" [
                    Text "0"
                  ] [("class_", AStr "stat-number"); ("id", AStr "regions-count")];
                  Element "div" [
                    Text "Affected Regions"
                  ] [("class_", AStr "stat-label")]
                ] [("class_", AStr "stat-content")]
              ] [("class_", AStr "stat-card")]
            ] [("class_", AStr "stats-grid")];
            Comment "Filter Controls";
            Element "div" [
              Element "div" [
                Element "label" [
                  Text "Filter by Region:"
                ] [("for_", AStr "region-filter"); ("class_", AStr "filter-label")];
                Element "select" [
                  Element "option" [
                    Text "All Regions"
                  ] [("value", ABool true)];
                  Element "option" [
                    Text "National Capital Region (NCR)"
                  ] [("value", AStr "ncr")];
                  Element "option" [
                    Text "Cordillera Administrative Region (CAR)"
                  ] [("value", AStr "car")];
                  Element "option" [
                    Text "Region 1 (Ilocos Region)"
                  ] [("value", AStr "region1")];
                  Element "option" [
                    Text "Region 2 (Cagayan Valley)"
                  ] [("value", AStr "region2")];
                  Element "option" [
                    Text "Region 3 (Central Luzon)"
                  ] [("value", AStr "region3")];
                  Element "option" [
                    Text "Region 4-A (CALABARZON)"
                  ] [("value", AStr "region4a")];
                  Element "option" [
                    Text "Region 4-B (MIMAROPA)"
                  ] [("value", AStr "region4b")];
                  Element "option" [
                    Text "Region 5 (Bicol Region)"
                  ] [("value", AStr "region5")];
                  Element "option" [
                    Text "Region 6 (Western Visayas)"
                  ] [("value", AStr "region6")];
                  Element "option" [
                    Text "Region 7 (Central Visayas)"
                  ] [("value", AStr "region7")];
                  Element "option" [
                    Text "Region 8 (Eastern Visayas)"
                  ] [("value", AStr "region8")];
                  Element "option" [
                    Text "Region 9 (Zamboanga Peninsula)"
                  ] [("value", AStr "region9")];
                  Element "option" [
                    Text "Region 10 (Northern Mindanao)"
                  ] [("value", AStr "region10")];
                  Element "option" [
                    Text "Region 11 (Davao Region)"
                  ] [("value", AStr "region11")];
                  Element "option" [
                    Text "Region 12 (SOCCSKSARGEN)"
                  ] [("value", AStr "region12")];
                  Element "option" [
                    Text "Region 13 (Caraga)"
                  ] [("value", AStr "region13")];
                  Element "option" [
                    Text "BARMM (Bangsamoro Autonomous Region in Muslim Mindanao)"
                  ] [("value", AStr "barmm")]
                ] [("id", AStr "region-filter"); ("class_", AStr "filter-select")]
              ] [("class_", AStr "filter-group")];
              Element "div" [
                Element "label" [
                  Text "Filter by Severity:"
                ] [("for_", AStr "severity-filter"); ("class_", AStr "filter-label")];
                Element "select" [
                  Element "option" [
                    Text "All Severities"
                  ] [("value", ABool true)];
                  Element "option" [
                    Text "Extreme"
                  ] [("value", AStr "extreme")];
                  Element "option" [
                    Text "Severe"
                  ] [("value", AStr "severe")];
                  Element "option" [
                    Text "Moderate"
                  ] [("value", AStr "moderate")];
                  Element "option" [
                    Text "Minor"
                  ] [("value", AStr "minor")]
                ] [("id", AStr "severity-filter"); ("class_", AStr "filter-select")]
              ] [("class_", AStr "filter-group")];
              Element "div" [
                Element "label" [
                  Text "Search Alerts:"
                ] [("for_", AStr "alert-search"); ("class_", AStr "filter-label")];
                Element "input_" [] [("type", AStr "search"); ("id", AStr "alert-search"); ("class_", AStr "filter-input"); ("placeholder", AStr "Search by location or alert type...")]
              ] [("class_", AStr "filter-group")];
              Element "button" [
                Element "i" [] [("class_", AStr "fas fa-undo")];
                Text "Reset Filters"
              ] [("class_", AStr "filter-reset"); ("id", AStr "reset-filters")]
            ] [("class_", AStr "filter-section")]
          ] [("class_", AStr "container")]
        ] [("id", AStr "dashboard"); ("class_", AStr "dashboard-section")];
        Comment "Active Alerts Section";
        Element "section" [
          Element "div" [
            Element "div" [
              Element "h2" [
                Text "Active Weather Alerts"
              ] [("class_", AStr "section-title")];
              Element "div" [
                Element "button" [
                  Element "i" [] [("class_", AStr "fas fa-sync-alt refresh-icon")];
                  Text "Refresh"
                ] [("class_", AStr "refresh-btn"); ("id", AStr "refresh-alerts"); ("aria_label", AStr "Refresh alerts")];
                Element "div" [
                  Element "button" [
                    Element "i" [] [("class_", AStr "fas fa-th")]
                  ] [("class_", AStr "view-btn active"); ("data_view", AStr "grid"); ("aria_label", AStr "Grid view")];
                  Element "button" [
                    Element "i" [] [("class_", AStr "fas fa-list")]
                  ] [("class_", AStr "view-btn"); ("data_view", AStr "list"); ("aria_label", AStr "List view")]
                ] [("class_", AStr "view-toggle")]
              ] [("class_", AStr "section-actions")]
            ] [("class_", AStr "section-header")];
            Comment "Loading State";
            Element "div" [
              Element "div" [] [("class_", AStr "loading-spinner")];
              Element "p" [
                Text "Loading weather alerts..."
              ] []
            ] [("class_", AStr "loading-state"); ("id", AStr "alerts-loading")];
            Comment "No Alerts State";
            Element "div" [
              Element "div" [
                Text "☀️"
              ] [("class_", AStr "no-alerts-icon")];
              Element "h3" [
                Text "No Active Weather Alerts"
              ] [];
              Element "p" [
                Text "There are currently no active weather alerts for the selected filters. Stay safe and check back regularly for updates."
              ] []
            ] [("class_", AStr "no-alerts-state"); ("id", AStr "no-alerts"); ("style", AStr "display: none;")];
            Comment "Alerts Grid";
            Element "div" [
              Comment "Alert cards will be dynamically inserted here"
            ] [("class_", AStr "alerts-grid"); ("id", AStr "alerts-container")]
          ] [("class_", AStr "container")]
        ] [("id", AStr "alerts"); ("class_", AStr "alerts-section")];
        Comment "Map Section";
        Element "section" [
          Element "div" [
            Element "div" [
              Element "h2" [
                Text "Interactive Weather Map"
              ] [("class_", AStr "section-title")];
              Element "p" [
                Text "Geographic visualization of active weather alerts across the Philippines"
              ] [("class_", AStr "section-description")]
            ] [("class_", AStr "section-header")];
            Element "div" [
              Element "div" [
                Element "div" [
                  Element "div" [] [("class_", AStr "loading-spinner")];
                  Element "p" [
                    Text "Loading interactive map..."
                  ] []
                ] [("class_", AStr "map-loading")]
              ] [("class_", AStr "map-placeholder"); ("id", AStr "weather-map")];
              Element "div" [
                Element "h3" [
                  Text "Alert Severity Legend"
                ] [("class_", AStr "legend-title")];
                Element "div" [
                  Element "div" [
                    Element "span" [] [("class_", AStr "legend-color extreme")];
                    Element "span" [
                      Text "Extreme"
                    ] [("class_", AStr "legend-label")]
                  ] [("class_", AStr "legend-item")];
                  Element "div" [
                    Element "span" [] [("class_", AStr "legend-color severe")];
                    Element "span" [
                      Text "Severe"
                    ] [("class_", AStr "legend-label")]
                  ] [("class_", AStr "legend-item")];
                  Element "div" [
                    Element "span" [] [("class_", AStr "legend-color moderate")];
                    Element "span" [
                      Text "Moderate"
                    ] [("class_", AStr "legend-label")]
                  ] [("class_", AStr "legend-item")];
                  Element "div" [
                    Element "span" [] [("class_", AStr "legend-color minor")];
                    Element "span" [
                      Text "Minor"
                    ] [("class_", AStr "legend-label")]
                  ] [("class_", AStr "legend-item")]
                ] [("class_", AStr "legend-items")]
              ] [("class_", AStr "map-legend")]
            ] [("class_", AStr "map-container")]
          ] [("class_", AStr "container")]
        ] [("id", AStr "map"); ("class_", AStr "map-section")];
        Comment "Analytics Section";
        Element "section" [
          Element "div" [
            Element "div" [
              Element "h2" [
                Text "Weather Analytics"
              ] [("class_", AStr "section-title")];
              Element "p" [
                Text "Statistical analysis and trends of weather alerts"
              ] [("class_", AStr "section-description")]
            ] [("class_", AStr "section-header")];
            Element "div" [
              Element "div" [
                Element "h3" [
                  Text "Alert Frequency by Region"
                ] [("class_", AStr "chart-title")];
                Element "div" [
                  Element "canvas" [] [("id", AStr "region-canvas"); ("width", AStr "400"); ("height", AStr "300")]
                ] [("class_", AStr "chart-placeholder"); ("id", AStr "region-chart")]
              ] [("class_", AStr "chart-container")];
              Element "div" [
                Element "h3" [
                  Text "Severity Distribution"
                ] [("class_", AStr "chart-title")];
                Element "div" [
                  Element "canvas" [] [("id", AStr "severity-canvas"); ("width", AStr "400"); ("height", AStr "300")]
                ] [("class_", AStr "chart-placeholder"); ("id", AStr "severity-chart")]
              ] [("class_", AStr "chart-container")];
              Element "div" [
                Element "h3" [
                  Text "Alert Timeline (24 Hours)"
                ] [("class_", AStr "chart-title")];
                Element "div" [
                  Element "canvas" [] [("id", AStr "timeline-canvas"); ("width", AStr "400"); ("height", AStr "300")]
                ] [("class_", AStr "chart-placeholder"); ("id", AStr "timeline-chart")]
              ] [("class_", AStr "chart-container")];
              Element "div" [
                Element "h3" [
                  Text "Weather Pattern Analysis"
                ] [("class_", AStr "chart-title")];
                Element "div" [
                  Element "canvas" [] [("id", AStr "pattern-canvas"); ("width", AStr "400"); ("height", AStr "300")]
                ] [("class_", AStr "chart-placeholder"); ("id", AStr "pattern-chart")]
              ] [("class_", AStr "chart-container")]
            ] [("class_", AStr "analytics-grid")]
          ] [("class_", AStr "container")]
        ] [("id", AStr "analytics"); ("class_", AStr "analytics-section")]
      ] [("id", AStr "main-content"); ("class_", AStr "main-content"); ("role", AStr "main")];
      Comment "Alert Detail Modal";
      Element "div" [
        Element "div" [] [("class_", AStr "modal-overlay"); ("id", AStr "modal-overlay")];
        Element "div" [
          Element "div" [
            Element "h2" [
              Text "Alert Details"
            ] [("class_", AStr "modal-title"); ("id", AStr "modal-title")];
            Element "button" [
              Element "i" [] [("class_", AStr "fas fa-times")]
            ] [("class_", AStr "modal-close"); ("id", AStr "modal-close"); ("aria_label", AStr "Close modal")]
          ] [("class_", AStr "modal-header")];
          Element "div" [
            Comment "Alert details will be dynamically inserted here"
          ] [("class_", AStr "modal-body"); ("id", AStr "modal-body")];
          Element "div" [
            Element "a" [
              Element "i" [] [("class_", AStr "fas fa-external-link-alt")];
              Text "View on PAGASA"
            ] [("class_", AStr "btn btn-secondary"); ("id", AStr "modal-pagasa-link"); ("target", AStr "_blank")];
            Element "button" [
              Text "Close"
            ] [("class_", AStr "btn btn-primary"); ("id", AStr "modal-close-btn")]
          ] [("class_", AStr "modal-footer")]
        ] [("class_", AStr "modal-content")]
      ] [("class_", AStr "modal"); ("id", AStr "alert-modal"); ("aria_hidden", AStr "true"); ("role", AStr "dialog"); ("aria_labelledby", AStr "modal-title")];
      Comment "Footer";
      Element "footer" [
        Element "div" [
          Element "div" [
            Element "div" [
              Element "h3" [
                Text "Bayanihan Weather Alert"
              ] [];
              Element "p" [
                Text "Real-time weather alerts and flood advisories from PAGASA to keep Filipino communities safe and informed."
              ] [];
              Element "div" [
                Element "a" [
                  Element "i" [] [("class_", AStr "fab fa-facebook")]
                ] [("href", AStr "#"); ("class_", AStr "social-link"); ("aria_label", AStr "Facebook")];
                Element "a" [
                  Element "i" [] [("class_", AStr "fab fa-twitter")]
                ] [("href", AStr "#"); ("class_", AStr "social-link"); ("aria_label", AStr "Twitter")];
                Element "a" [
                  Element "i" [] [("class_", AStr "fab fa-instagram")]
                ] [("href", AStr "#"); ("class_", AStr "social-link"); ("aria_label", AStr "Instagram")]
              ] [("class_", AStr "footer-social")]
            ] [("class_", AStr "footer-section")];
            Element "div" [
              Element "h4" [
                Text "Quick Links"
              ] [];
              Element "ul" [
                Element "li" [
                  Element "a" [
                    Text "Dashboard"
                  ] [("href", AStr "#dashboard")]
                ] [];
                Element "li" [
                  Element "a" [
                    Text "Active Alerts"
                  ] [("href", AStr "#alerts")]
                ] [];
                Element "li" [
                  Element "a" [
                    Text "Map View"
                  ] [("href", AStr "#map")]
                ] [];
                Element "li" [
                  Element "a" [
                    Text "Analytics"
                  ] [("href", AStr "#analytics")]
                ] []
              ] [("class_", AStr "footer-links")]
            ] [("class_", AStr "footer-section")];
            Element "div" [
              Element "h4" [
                Text "Resources"
              ] [];
              Element "ul" [
                Element "li" [
                  Element "a" [
                    Text "PAGASA Official"
                  ] [("href", AStr "https://www.pagasa.dost.gov.ph/"); ("target", AStr "_blank")]
                ] [];
                Element "li" [
                  Element "a" [
                    Text "NDRRMC"
                  ] [("href", AStr "https://www.ndrrmc.gov.ph/"); ("target", AStr "_blank")]
                ] [];
                Element "li" [
                  Element "a" [
                    Text "Emergency Contacts"
                  ] [("href", AStr "#"); ("target", AStr "_blank")]
                ] [];
                Element "li" [
                  Element "a" [
                    Text "Safety Tips"
                  ] [("href", AStr "#"); ("target", AStr "_blank")]
                ] []
              ] [("class_", AStr "footer-links")]
            ] [("class_", AStr "footer-section")];
            Element "div" [
              Element "h4" [
                Text "About"
              ] [];
              Element "ul" [
                Element "li" [
                  Element "a" [
                    Text "About Us"
                  ] [("href", AStr "#")]
                ] [];
                Element "li" [
                  Element "a" [
                    Text "Privacy Policy"
                  ] [("href", AStr "#")]
                ] [];
                Element "li" [
                  Element "a" [
                    Text "Terms of Service"
                  ] [("href", AStr "#")]
                ] [];
                Element "li" [
                  Element "a" [
                    Text "Contact"
                  ] [("href", AStr "#")]
                ] []
              ] [("class_", AStr "footer-links")]
            ] [("class_", AStr "footer-section")]
          ] [("class_", AStr "footer-content")];
          Element "div" [
            Element "p" [
              Text "© 2025 Bayanihan Weather Alert. Data provided by PAGASA."
            ] [];
            Element "p" [
              Text "Built with ❤️ for Filipino communities"
            ] []
          ] [("class_", AStr "footer-bottom")]
        ] [("class_", AStr "container")]
      ] [("class_", AStr "footer"); ("role", AStr "contentinfo")];
      Comment "LeafletJS Map Script";
      Comment "Chart.js Library";
      Comment "LeafletJS Map Script";
      Comment "Your Application Scripts";
      Comment "Back to Top Button";
      Element "button" [
        Element "i" [] [("class_", AStr "fas fa-arrow-up")]
      ] [("id", AStr "back-to-top"); ("class_", AStr "btn btn-primary"); ("title", AStr "Go to top")];
      Element "script" [] [("src", AStr "https://unpkg.com/leaflet@1.9.4/dist/leaflet.js")];
      Element "script" [] [("src", AStr "https://cdn.jsdelivr.net/npm/chart.js")];
      Element "script" [] [("src", AStr "https://unpkg.com/leaflet@1.9.4/dist/leaflet.js")];
      Element "script" [] [("src", AStr "script.js")]
    ] []
  ] [].

(** [def main_page(request)]: the request is not consulted. *)
Definition main_page (request : Syqlorix.request) : M returned :=
  mret (Bare (VDocument page)).

(** [def pagasa_proxy(request)].  [import urllib.request] precedes the
    [try]; the [with] block closes the response on the way out, which
    leaves no trace in the world. *)
Definition pagasa_proxy (request : Syqlorix.request) : M returned :=
  try_except
    (let url := "https://publicalert.pagasa.dost.gov.ph/feeds/" in
     let req := Request_new url in
     let req :=
       add_header "User-Agent"
         "Mozilla/5.0 (Windows NT 10.0; Win64; x64) AppleWebKit/537.36" req in
     xml_data ← (response ← urlopen req;
                 raw ← read response;
                 decode_utf8 raw);
     mret (Triple (VStr xml_data) 200
             {[ "Content-Type" := "application/atom+xml" ]}))
    Py.Exception
    (fun e =>
       print (FString "Proxy error: " e);;
       mret (Pair (VDict {[ "error" := "Failed to fetch PAGASA data" ]}) 500)).

(** The module body: [doc = Syqlorix()], then the three registrations in
    the order they are executed. *)
Definition doc : App :=
  route "/api/pagasa-proxy" pagasa_proxy_ref
    (route "/" main_page_ref
       (proxy "/api/pagasa-proxy"
          "https://publicalert.pagasa.dost.gov.ph/feeds"
          Syqlorix.new)).

(** Calling a registered handler. *)
Definition call (h : handler_ref) : Syqlorix.request -> M returned :=
  match h with
  | main_page_ref => main_page
  | pagasa_proxy_ref => pagasa_proxy
  end.

End App.

(** ** Vocabulary of the statements *)

Module Feed.
Import Dom Urllib Syqlorix Run App.

Definition upstream_url : string :=
  "https://publicalert.pagasa.dost.gov.ph/feeds/".

Definition user_agent : string :=
  "Mozilla/5.0 (Windows NT 10.0; Win64; x64) AppleWebKit/537.36".

(** The request object as it stands when [urlopen] is called. *)
Definition upstream_request : Request :=
  {| full_url := upstream_url;
     data := None;
     headers := {[ "User-agent" := user_agent ]} |}.

Definition error_reply : returned :=
  Pair (VDict {[ "error" := "Failed to fetch PAGASA data" ]}) 500.

Definition feed_reply (text : str) : returned :=
  Triple (VStr text) 200 {[ "Content-Type" := "application/atom+xml" ]}.

(** The fetch, read and decode steps of the [try] block. *)
Definition fetch_read_decode : M str :=
  response ← urlopen upstream_request;
  raw ← read response;
  decode_utf8 raw.

(** The causes for which the upstream fetch counts as failed: no
    response, a final status outside 200..299, a body that cannot be
    read in full, a body that is not UTF-8. *)
Inductive fetch_fails : transport -> Prop :=
| fails_network reason :
    fetch_fails (Unreachable reason)
| fails_status st reason ct b :
    ~ (200 <= st < 300) -> fetch_fails (Responded st reason ct b)
| fails_read st reason ct f :
    fetch_fails (Responded st reason ct (ReadFails f))
| fails_decode st reason ct raw :
    Utf8.decode raw = None ->
    fetch_fails (Responded st reason ct (ReadOk raw)).

(** The headers component of a handler's return value, when it has one. *)
Definition headers_of (r : returned) : option (gmap string string) :=
  match r with
  | Triple _ _ hdrs => Some hdrs
  | Bare _ | Pair _ _ => None
  end.

Definition status_of (r : returned) : option Z :=
  match r with
  | Triple _ st _ | Pair _ st => Some st
  | Bare _ => None
  end.

(** The world after one more outbound call, and after one more line on
    the console. *)
Definition sent (w : World) (req : Request) : World :=
  {| app := app w; outbound := outbound w ++ [req]; stdout := stdout w |}.

Definition logged (w : World) (l : line) : World :=
  {| app := app w; outbound := outbound w; stdout := stdout w ++ [l] |}.

End Feed.

(** ** Sample inputs *)

Module Sample.
Import Urllib Syqlorix Run App.

(** The process right after import, before any request. *)
Definition fresh : World := {| app := doc; outbound := []; stdout := [] |}.

Definition get_proxy : request :=
  {| method := "GET"; path := "/api/pagasa-proxy";
     query_params := []; req_headers := []; req_body := [] |}.

(** A caller trying to steer the proxy elsewhere. *)
Definition get_proxy_steered : request :=
  {| method := "GET"; path := "/api/pagasa-proxy";
     query_params := [("url", "http://intranet.example/")];
     req_headers := [("User-Agent", "curl/8.0")]; req_body := [] |}.

Definition get_root : request :=
  {| method := "GET"; path := "/";
     query_params := [("q", "1")];
     req_headers := [("Accept", "text/plain")]; req_body := [] |}.

Definition feed_bytes : bytes := String.list_byte_of_string "<feed>ok</feed>".

Definition feed_text : str :=
  [60; 102; 101; 101; 100; 62; 111; 107; 60; 47; 102; 101; 101; 100; 62].

(** Upstream answers 200 with the feed, labelled as plain text. *)
Definition net_ok : network :=
  fun _ => Responded 200 "OK" "text/plain" (ReadOk feed_bytes).

Definition net_down : network :=
  fun _ => Unreachable "timed out".

(** Upstream answers 200 with a body that starts with a stray [FF]. *)
Definition net_garbled : network :=
  fun _ => Responded 200 "OK" "application/atom+xml" (ReadOk (xff :: feed_bytes)).

(** The first call fails, a second one would succeed. *)
Definition net_flaky : network :=
  fun n =>
    match n with
    | O => Responded 503 "Service Unavailable" "text/html" (ReadOk [])
    | S _ => Responded 200 "OK" "application/atom+xml" (ReadOk feed_bytes)
    end.

End Sample.

(** ** Looking into a document *)

Module Query.
Import Dom.

(** A node followed by all its descendants, in document order. *)
Fixpoint elements (n : Node) : list Node :=
  match n with
  | Element _ children _ => n :: flat_map elements children
  | Text _ | Comment _ => [n]
  end.

Fixpoint assoc (key : string) (kvs : list (string * attr_value))
    : option attr_value :=
  match kvs with
  | [] => None
  | (k, v) :: rest => if decide (k = key) then Some v else assoc key rest
  end.

(** The string value of a keyword attribute of an element, if it has one. *)
Definition attr (key : string) (n : Node) : option string :=
  match n with
  | Element _ _ attributes =>
      match assoc key attributes with
      | Some (AStr v) => Some v
      | _ => None
      end
  | Text _ | Comment _ => None
  end.

(** Every [id] given in the document, in document order. *)
Definition ids (n : Node) : list string := omap (attr "id") (elements n).

(** The keyword attributes whose value names another element by its id. *)
Definition idref_keys : list string :=
  ["for_"; "aria_controls"; "aria_labelledby"].

(** The id an [href] points at inside the same document: [#name] with a
    name that is not empty. *)
Definition fragment (href : string) : option string :=
  match href with
  | String "#" (String c rest) => Some (String c rest)
  | _ => None
  end.

(** Does every id this element refers to, by one of [idref_keys] or by a
    fragment [href], occur among [known]? *)
Definition refs_ok (known : list string) (e : Node) : bool :=
  forallb
    (fun key =>
       match attr key e with
       | Some v => bool_decide (v ∈ known)
       | None => true
       end)
    idref_keys
  && match attr "href" e with
     | Some href =>
         match fragment href with
         | Some name => bool_decide (name ∈ known)
         | None => true
         end
     | None => true
     end.

End Query.

(** ** Serving several requests in a row *)

Module Serve.
Import Urllib Syqlorix Run App.

(** The handlers called one after the other on the same process, each
    request with the handler it was routed to. *)
Fixpoint serve_all (jobs : list (handler_ref * Syqlorix.request))
    : M (list returned) :=
  match jobs with
  | [] => mret []
  | (h, request) :: rest =>
      reply ← call h request;
      replies ← serve_all rest;
      mret (reply :: replies)
  end.

(** How many of the jobs go to the feed handler. *)
Definition feed_jobs (jobs : list (handler_ref * Syqlorix.request)) : nat :=
  length (filter (fun job => job.1 = pagasa_proxy_ref) jobs).

End Serve.

(** * Facts *)

(** ** UTF-8: what is decoded encodes back to the same octets *)

Module Utf8Facts.
Import Utf8.

Lemma Z_of_byte_range c : 0 <= Z_of_byte c < 256.
Proof.
  unfold Z_of_byte. pose proof (Byte.to_N_bounded c). lia.
Qed.

Lemma byte_of_Z_of_byte c : byte_of_Z (Z_of_byte c) = c.
Proof.
  unfold byte_of_Z. pose proof (Z_of_byte_range c) as Hc.
  rewrite Z.mod_small by lia. unfold Z_of_byte.
  rewrite N2Z.id, Byte.of_to_N. reflexivity.
Qed.

Lemma lor_disjoint a b n :
  0 <= n -> a mod 2 ^ n = 0 -> 0 <= b < 2 ^ n -> Z.lor a b = a + b.
Proof.
  intros Hn Ha Hb.
  assert (Z.land a b = 0) as Hland.
  { rewrite <- (Z.mod_small b (2 ^ n)) by lia.
    rewrite <- Z.land_ones by lia.
    rewrite (Z.land_comm b), Z.land_assoc, Z.land_ones by lia.
    rewrite Ha. apply Z.land_0_l. }
  pose proof (Z.add_lor_land a b). lia.
Qed.


Local Ltac euclid := Z.to_euclidean_division_equations; lia.

Lemma is_cont_range c :
  is_cont (Z_of_byte c) = true -> 0x80 <= Z_of_byte c < 0xC0.
Proof. destruct c; vm_compute; intros; try discriminate; split; congruence. Qed.

Lemma land_low x n m : 0 <= n -> m = Z.ones n -> Z.land x m = x mod 2 ^ n.
Proof. intros Hn ->. apply Z.land_ones. assumption. Qed.

Lemma cp2_val b0 b1 :
  0xC0 <= b0 < 0xE0 -> 0x80 <= b1 < 0xC0 ->
  cp2 b0 b1 = (b0 - 0xC0) * 64 + (b1 - 0x80).
Proof.
  intros H0 H1. unfold cp2.
  rewrite (land_low b0 5), (land_low b1 6) by (reflexivity || lia).
  rewrite Z.shiftl_mul_pow2 by lia.
  rewrite (lor_disjoint _ _ 6) by euclid.
  euclid.
Qed.

Lemma cp3_val b0 b1 b2 :
  0xE0 <= b0 < 0xF0 -> 0x80 <= b1 < 0xC0 -> 0x80 <= b2 < 0xC0 ->
  cp3 b0 b1 b2 = (b0 - 0xE0) * 4096 + (b1 - 0x80) * 64 + (b2 - 0x80).
Proof.
  intros H0 H1 H2. unfold cp3.
  rewrite (land_low b0 4), (land_low b1 6), (land_low b2 6)
    by (reflexivity || lia).
  rewrite !Z.shiftl_mul_pow2 by lia.
  rewrite (lor_disjoint (_ * 2 ^ 12) (_ * 2 ^ 6) 12) by euclid.
  rewrite (lor_disjoint _ _ 6) by euclid.
  euclid.
Qed.

Lemma cp4_val b0 b1 b2 b3 :
  0xF0 <= b0 < 0xF8 ->
  0x80 <= b1 < 0xC0 -> 0x80 <= b2 < 0xC0 -> 0x80 <= b3 < 0xC0 ->
  cp4 b0 b1 b2 b3
  = (b0 - 0xF0) * 262144 + (b1 - 0x80) * 4096 + (b2 - 0x80) * 64 + (b3 - 0x80).
Proof.
  intros H0 H1 H2 H3. unfold cp4.
  rewrite (land_low b0 3), (land_low b1 6), (land_low b2 6), (land_low b3 6)
    by (reflexivity || lia).
  rewrite !Z.shiftl_mul_pow2 by lia.
  rewrite (lor_disjoint (_ * 2 ^ 18) (_ * 2 ^ 12) 18) by euclid.
  rewrite (lor_disjoint _ (_ * 2 ^ 6) 12) by euclid.
  rewrite (lor_disjoint _ _ 6) by euclid.
  euclid.
Qed.

Lemma encode_cp_1 ch : 0 <= ch < 0x80 -> encode_cp ch = [byte_of_Z ch].
Proof.
  intros H. unfold encode_cp.
  destruct (Z.ltb_spec ch 0x80); [reflexivity | lia].
Qed.

Lemma encode_cp_2 ch :
  0x80 <= ch < 0x800 ->
  encode_cp ch = [byte_of_Z (0xC0 + ch / 64); byte_of_Z (0x80 + ch mod 64)].
Proof.
  intros H. unfold encode_cp.
  destruct (Z.ltb_spec ch 0x80); [lia |].
  destruct (Z.ltb_spec ch 0x800); [| lia].
  rewrite (land_low ch 6) by (reflexivity || lia).
  rewrite Z.shiftr_div_pow2 by lia.
  rewrite (lor_disjoint 0xC0 _ 5), (lor_disjoint 0x80 _ 6) by euclid.
  reflexivity.
Qed.

Lemma encode_cp_3 ch :
  0x800 <= ch < 0x10000 ->
  encode_cp ch = [byte_of_Z (0xE0 + ch / 4096);
                  byte_of_Z (0x80 + (ch / 64) mod 64);
                  byte_of_Z (0x80 + ch mod 64)].
Proof.
  intros H. unfold encode_cp.
  destruct (Z.ltb_spec ch 0x80); [lia |].
  destruct (Z.ltb_spec ch 0x800); [lia |].
  destruct (Z.ltb_spec ch 0x10000); [| lia].
  rewrite (land_low ch 6), (land_low (Z.shiftr ch 6) 6) by (reflexivity || lia).
  rewrite !Z.shiftr_div_pow2 by lia.
  rewrite (lor_disjoint 0xE0 _ 4), !(lor_disjoint 0x80 _ 6) by euclid.
  reflexivity.
Qed.

Lemma encode_cp_4 ch :
  0x10000 <= ch < 0x110000 ->
  encode_cp ch = [byte_of_Z (0xF0 + ch / 262144);
                  byte_of_Z (0x80 + (ch / 4096) mod 64);
                  byte_of_Z (0x80 + (ch / 64) mod 64);
                  byte_of_Z (0x80 + ch mod 64)].
Proof.
  intros H. unfold encode_cp.
  destruct (Z.ltb_spec ch 0x80); [lia |].
  destruct (Z.ltb_spec ch 0x800); [lia |].
  destruct (Z.ltb_spec ch 0x10000); [lia |].
  rewrite (land_low ch 6), (land_low (Z.shiftr ch 6) 6),
    (land_low (Z.shiftr ch 12) 6) by (reflexivity || lia).
  rewrite !Z.shiftr_div_pow2 by lia.
  rewrite (lor_disjoint 0xF0 _ 3), !(lor_disjoint 0x80 _ 6) by euclid.
  reflexivity.
Qed.

Lemma second_of_3_spec b0 c1 :
  second_of_3 b0 (Z_of_byte c1) = true ->
  0x80 <= Z_of_byte c1 < 0xC0
  /\ (b0 = 0xE0 -> 0xA0 <= Z_of_byte c1)
  /\ (b0 = 0xED -> Z_of_byte c1 < 0xA0).
Proof.
  unfold second_of_3. rewrite !andb_true_iff. intros [[Hc Hlo] Hhi].
  apply is_cont_range in Hc.
  destruct (Z.eqb_spec b0 0xE0), (Z.eqb_spec b0 0xED); lia.
Qed.

Lemma second_of_4_spec b0 c1 :
  second_of_4 b0 (Z_of_byte c1) = true ->
  0x80 <= Z_of_byte c1 < 0xC0
  /\ (b0 = 0xF0 -> 0x90 <= Z_of_byte c1)
  /\ (b0 = 0xF4 -> Z_of_byte c1 < 0x90).
Proof.
  unfold second_of_4. rewrite !andb_true_iff. intros [[Hc Hlo] Hhi].
  apply is_cont_range in Hc.
  destruct (Z.eqb_spec b0 0xF0), (Z.eqb_spec b0 0xF4); lia.
Qed.

Lemma encode_cons ch text : encode (ch :: text) = encode_cp ch ++ encode text.
Proof. reflexivity. Qed.

Lemma byte_eq c z : z = Z_of_byte c -> byte_of_Z z = c.
Proof. intros ->. apply byte_of_Z_of_byte. Qed.

Lemma decode_encode_upto (n : nat) :
  forall (data : bytes) (text : str),
    (length data <= n)%nat -> decode data = Some text -> encode text = data.
Proof.
  induction n as [|n IH]; intros data text Hlen Hdec.
  { destruct data; simpl in Hlen; [| lia].
    injection Hdec as <-. reflexivity. }
  destruct data as [|c0 r0].
  { injection Hdec as <-. reflexivity. }
  cbn [decode] in Hdec. cbv zeta in Hdec.
  pose proof (Z_of_byte_range c0) as R0.
  simpl in Hlen.
  destruct (Z.ltb_spec (Z_of_byte c0) 0x80).
  { apply fmap_Some in Hdec as (t & Ht & ->).
    rewrite encode_cons, encode_cp_1 by lia.
    rewrite byte_of_Z_of_byte. cbn [app]. f_equal.
    apply IH; [lia | assumption]. }
  destruct (Z.ltb_spec (Z_of_byte c0) 0xC2); [discriminate |].
  destruct (Z.ltb_spec (Z_of_byte c0) 0xE0).
  { destruct r0 as [|c1 r1]; [discriminate |].
    destruct (is_cont (Z_of_byte c1)) eqn:C1; [| discriminate].
    apply is_cont_range in C1.
    apply fmap_Some in Hdec as (t & Ht & ->).
    rewrite encode_cons, cp2_val, encode_cp_2 by lia.
    cbn [app]. simpl in Hlen.
    rewrite (IH r1 t) by (lia || assumption).
    repeat f_equal; apply byte_eq; euclid. }
  destruct (Z.ltb_spec (Z_of_byte c0) 0xF0).
  { destruct r0 as [|c1 [|c2 r2]]; try discriminate.
    destruct (second_of_3 _ _) eqn:C1; [| discriminate].
    destruct (is_cont (Z_of_byte c2)) eqn:C2; [| discriminate].
    apply second_of_3_spec in C1 as (C1 & Clo & Chi).
    apply is_cont_range in C2.
    apply fmap_Some in Hdec as (t & Ht & ->).
    rewrite encode_cons, cp3_val, encode_cp_3 by lia.
    cbn [app]. simpl in Hlen.
    rewrite (IH r2 t) by (lia || assumption).
    repeat f_equal; apply byte_eq; euclid. }
  destruct (Z.ltb_spec (Z_of_byte c0) 0xF5); [| discriminate].
  destruct r0 as [|c1 [|c2 [|c3 r3]]]; try discriminate.
  destruct (second_of_4 _ _) eqn:C1; [| discriminate].
  destruct (is_cont (Z_of_byte c2)) eqn:C2; [| discriminate].
  destruct (is_cont (Z_of_byte c3)) eqn:C3; [| discriminate].
  apply second_of_4_spec in C1 as (C1 & Clo & Chi).
  apply is_cont_range in C2. apply is_cont_range in C3.
  apply fmap_Some in Hdec as (t & Ht & ->).
  rewrite encode_cons, cp4_val, encode_cp_4 by lia.
  cbn [app]. simpl in Hlen.
  rewrite (IH r3 t) by (lia || assumption).
  repeat f_equal; apply byte_eq; euclid.
Qed.

Lemma decode_encode (data : bytes) (text : str) :
  decode data = Some text -> encode text = data.
Proof. apply (decode_encode_upto (length data)). lia. Qed.

(** Strict decoding yields scalar values only, so the text can always be
    encoded again. *)
Lemma decode_scalar_upto (n : nat) :
  forall (data : bytes) (text : str),
    (length data <= n)%nat -> decode data = Some text -> Forall scalar text.
Proof.
  induction n as [|n IH]; intros data text Hlen Hdec.
  { destruct data; simpl in Hlen; [| lia].
    injection Hdec as <-. constructor. }
  destruct data as [|c0 r0].
  { injection Hdec as <-. constructor. }
  cbn [decode] in Hdec. cbv zeta in Hdec.
  pose proof (Z_of_byte_range c0) as R0.
  simpl in Hlen. unfold scalar in *.
  destruct (Z.ltb_spec (Z_of_byte c0) 0x80).
  { apply fmap_Some in Hdec as (t & Ht & ->).
    constructor; [lia | apply (IH r0); [lia | assumption]]. }
  destruct (Z.ltb_spec (Z_of_byte c0) 0xC2); [discriminate |].
  destruct (Z.ltb_spec (Z_of_byte c0) 0xE0).
  { destruct r0 as [|c1 r1]; [discriminate |].
    destruct (is_cont (Z_of_byte c1)) eqn:C1; [| discriminate].
    apply is_cont_range in C1.
    apply fmap_Some in Hdec as (t & Ht & ->).
    simpl in Hlen. rewrite cp2_val by lia.
    constructor; [lia | apply (IH r1); [lia | assumption]]. }
  destruct (Z.ltb_spec (Z_of_byte c0) 0xF0).
  { destruct r0 as [|c1 [|c2 r2]]; try discriminate.
    destruct (second_of_3 _ _) eqn:C1; [| discriminate].
    destruct (is_cont (Z_of_byte c2)) eqn:C2; [| discriminate].
    apply second_of_3_spec in C1 as (C1 & Clo & Chi).
    apply is_cont_range in C2.
    apply fmap_Some in Hdec as (t & Ht & ->).
    simpl in Hlen. rewrite cp3_val by lia.
    constructor; [lia | apply (IH r2); [lia | assumption]]. }
  destruct (Z.ltb_spec (Z_of_byte c0) 0xF5); [| discriminate].
  destruct r0 as [|c1 [|c2 [|c3 r3]]]; try discriminate.
  destruct (second_of_4 _ _) eqn:C1; [| discriminate].
  destruct (is_cont (Z_of_byte c2)) eqn:C2; [| discriminate].
  destruct (is_cont (Z_of_byte c3)) eqn:C3; [| discriminate].
  apply second_of_4_spec in C1 as (C1 & Clo & Chi).
  apply is_cont_range in C2. apply is_cont_range in C3.
  apply fmap_Some in Hdec as (t & Ht & ->).
  simpl in Hlen. rewrite cp4_val by lia.
  constructor; [lia | apply (IH r3); [lia | assumption]].
Qed.

Lemma decode_scalar (data : bytes) (text : str) :
  decode data = Some text -> Forall scalar text.
Proof. apply (decode_scalar_upto (length data)). lia. Qed.

End Utf8Facts.

(** ** The feed handler, outcome by outcome *)

Module FeedFacts.
Import Dom Urllib Syqlorix Run App Feed.

Lemma prepared_request :
  add_header "User-Agent" user_agent (Request_new upstream_url)
  = upstream_request.
Proof.
  reflexivity.
Qed.

Lemma proxy_unfold request net w :
  pagasa_proxy request net w
  = try_except
      (xml_data ← fetch_read_decode; mret (feed_reply xml_data))
      Py.Exception
      (fun e => print (FString "Proxy error: " e);; mret error_reply)
      net w.
Proof.
  unfold pagasa_proxy. cbv zeta.
  change "https://publicalert.pagasa.dost.gov.ph/feeds/"%string with upstream_url.
  change "Mozilla/5.0 (Windows NT 10.0; Win64; x64) AppleWebKit/537.36"%string with user_agent.
  rewrite prepared_request. reflexivity.
Qed.

Lemma proxy_success request net w st reason ct raw text :
  net (length (outbound w)) = Responded st reason ct (ReadOk raw) ->
  200 <= st < 300 ->
  Utf8.decode raw = Some text ->
  pagasa_proxy request net w
  = (Py.Returns (feed_reply text), sent w upstream_request).
Proof.
  intros Hnet Hst Hdec. rewrite proxy_unfold.
  unfold try_except, fetch_read_decode, mbind, M_bind, urlopen. rewrite Hnet.
  destruct (Z.leb_spec 200 st); [| lia].
  destruct (Z.ltb_spec st 300); [| lia].
  cbn [andb]. unfold read. cbn [resp_body].
  unfold mret, M_ret, decode_utf8. rewrite Hdec. reflexivity.
Qed.

Lemma proxy_failure request net w :
  fetch_fails (net (length (outbound w))) ->
  exists e,
    Py.isinstance e Py.Exception = true
    /\ pagasa_proxy request net w
       = (Py.Returns error_reply,
          logged (sent w upstream_request) (FString "Proxy error: " e)).
Proof.
  intros Hfail. rewrite proxy_unfold.
  unfold try_except, fetch_read_decode, mbind, M_bind, urlopen.
  inversion Hfail as [reason Hnet | st reason ct b Hst Hnet
                     | st reason ct f Hnet | st reason ct raw Hdec Hnet];
    clear Hfail.
  - exists (Py.URLError_ reason). split; reflexivity.
  - exists (Py.HTTPError_ st reason). split; [reflexivity |].
    destruct (Z.leb_spec 200 st), (Z.ltb_spec st 300);
      try lia; reflexivity.
  - destruct (Z.leb_spec 200 st), (Z.ltb_spec st 300); cbn [andb];
      try (exists (Py.HTTPError_ st reason); split; reflexivity).
    exists (exn_of_read_failure f). split; [destruct f; reflexivity |].
    unfold read. cbn [resp_body]. unfold raise.
    destruct f; reflexivity.
  - destruct (Z.leb_spec 200 st), (Z.ltb_spec st 300); cbn [andb];
      try (exists (Py.HTTPError_ st reason); split; reflexivity).
    exists (Py.UnicodeDecodeError_ "utf-8" raw). split; [reflexivity |].
    unfold read. cbn [resp_body]. unfold mret, M_ret, decode_utf8.
    rewrite Hdec. reflexivity.
Qed.

Lemma fetch_dichotomy (t : transport) :
  fetch_fails t
  \/ exists st reason ct raw text,
       t = Responded st reason ct (ReadOk raw)
       /\ 200 <= st < 300
       /\ Utf8.decode raw = Some text.
Proof.
  destruct t as [reason | st reason ct [raw | f]].
  - left. constructor.
  - destruct (decide (200 <= st < 300)) as [Hst | Hst].
    + destruct (Utf8.decode raw) as [text |] eqn:Hdec.
      * right. exists st, reason, ct, raw, text. auto.
      * left. apply fails_decode. assumption.
    + left. apply fails_status. assumption.
  - left. apply fails_read.
Qed.

End FeedFacts.

(** * The claims *)

Import Dom Urllib Syqlorix Run App Feed.

(** A fetch that got a 2xx response whose body reads and decodes has not
    failed. *)
Lemma fetch_ok_not_fails st reason ct raw text :
  200 <= st < 300 ->
  Utf8.decode raw = Some text ->
  ~ fetch_fails (Responded st reason ct (ReadOk raw)).
Proof.
  intros Hst Hdec Hfail. inversion Hfail; subst; [lia | congruence].
Qed.

(** [except Exception] is selective: an interrupt raised inside the [try]
    block would pass through it. *)
Remark except_Exception_passes_interrupt (net : network) (w : World) :
  try_except (raise Py.KeyboardInterrupt_) Py.Exception
    (fun _ => mret error_reply) net w
  = (Py.Raises Py.KeyboardInterrupt_, w).
Proof. reflexivity. Qed.

(** The development mapping registered next to the two routes. *)
Remark doc_dev_proxies :
  dev_proxies doc
  = {[ "/api/pagasa-proxy" := "https://publicalert.pagasa.dost.gov.ph/feeds" ]}.
Proof. reflexivity. Qed.

(** C1. When the upstream fetch succeeds (a 2xx response whose body is read
    in full and decodes), whatever content type the upstream declared, the
    handler returns the decoded body with status 200 and the header
    Content-Type: application/atom+xml, and the returned text encodes back
    to exactly the octets the upstream sent. *)
Theorem proxy_success_relays_body
    (request : Syqlorix.request) (net : network) (w : World)
    (st : Z) (reason ct : string) (raw : bytes) (text : str) :
  net (length (outbound w)) = Responded st reason ct (ReadOk raw) ->
  200 <= st < 300 ->
  Utf8.decode raw = Some text ->
  fst (pagasa_proxy request net w)
  = Py.Returns
      (Triple (VStr text) 200 {[ "Content-Type" := "application/atom+xml" ]})
  /\ respond
       (Triple (VStr text) 200 {[ "Content-Type" := "application/atom+xml" ]})
     = {| status := 200;
          content_type := Some "application/atom+xml";
          body := VStr text |}
  /\ Utf8.encode text = raw.
Proof.
  intros Hnet Hst Hdec.
  rewrite (FeedFacts.proxy_success _ _ _ _ _ _ _ _ Hnet Hst Hdec).
  split; [reflexivity |]. split; [reflexivity |].
  apply Utf8Facts.decode_encode. assumption.
Qed.

Lemma proxy_success_relays_body_witness :
  Sample.net_ok (length (outbound Sample.fresh))
  = Responded 200 "OK" "text/plain" (ReadOk Sample.feed_bytes)
  /\ 200 <= 200 < 300
  /\ Utf8.decode Sample.feed_bytes = Some Sample.feed_text
  /\ fst (pagasa_proxy Sample.get_proxy Sample.net_ok Sample.fresh)
     = Py.Returns
         (Triple (VStr Sample.feed_text) 200
            {[ "Content-Type" := "application/atom+xml" ]})
  /\ respond
       (Triple (VStr Sample.feed_text) 200
          {[ "Content-Type" := "application/atom+xml" ]})
     = {| status := 200;
          content_type := Some "application/atom+xml";
          body := VStr Sample.feed_text |}
  /\ Utf8.encode Sample.feed_text = Sample.feed_bytes.
Proof.
  split; [reflexivity |]. split; [lia |]. split; [reflexivity |].
  apply (proxy_success_relays_body Sample.get_proxy Sample.net_ok Sample.fresh
           200 "OK" "text/plain" Sample.feed_bytes Sample.feed_text);
    [reflexivity | lia | reflexivity].
Defined.

(** C2. When the upstream fetch fails, for whichever cause (no response, a
    final status outside 200..299, a body that cannot be read, a body that
    is not UTF-8), the handler returns status 500 with the one-entry dict
    error -> Failed to fetch PAGASA data; the reply is the same for every
    cause. *)
Theorem proxy_failure_uniform_500
    (request : Syqlorix.request) (net : network) (w : World) :
  fetch_fails (net (length (outbound w))) ->
  fst (pagasa_proxy request net w)
  = Py.Returns (Pair (VDict {[ "error" := "Failed to fetch PAGASA data" ]}) 500).
Proof.
  intros Hfail.
  destruct (FeedFacts.proxy_failure request net w Hfail) as (e & _ & ->).
  reflexivity.
Qed.

Lemma proxy_failure_uniform_500_witness :
  fetch_fails (Sample.net_down (length (outbound Sample.fresh)))
  /\ fst (pagasa_proxy Sample.get_proxy Sample.net_down Sample.fresh)
     = Py.Returns
         (Pair (VDict {[ "error" := "Failed to fetch PAGASA data" ]}) 500).
Proof.
  split.
  - apply fails_network.
  - apply (proxy_failure_uniform_500 Sample.get_proxy Sample.net_down
             Sample.fresh).
    apply fails_network.
Defined.

(** C3. Whatever the request and however the network answers, running the
    handler adds exactly one entry to the outbound calls: a GET for the
    fixed feed URL whose only header is the fixed browser user agent.  A
    failed call is not repeated. *)
Theorem proxy_one_outbound_get
    (request : Syqlorix.request) (net : network) (w : World) :
  exists req : Request,
    outbound (snd (pagasa_proxy request net w)) = outbound w ++ [req]
    /\ get_method req = "GET"
    /\ full_url req = "https://publicalert.pagasa.dost.gov.ph/feeds/"
    /\ headers req
       = {[ "User-agent" :=
              "Mozilla/5.0 (Windows NT 10.0; Win64; x64) AppleWebKit/537.36" ]}.
Proof.
  exists upstream_request.
  split; [| split; [| split]]; try reflexivity.
  destruct (FeedFacts.fetch_dichotomy (net (length (outbound w))))
    as [Hfail | (st & reason & ct & raw & text & Hnet & Hst & Hdec)].
  - destruct (FeedFacts.proxy_failure request net w Hfail) as (e & _ & ->).
    reflexivity.
  - rewrite (FeedFacts.proxy_success _ _ _ _ _ _ _ _ Hnet Hst Hdec).
    reflexivity.
Qed.

(** With a network whose second answer would be good, the handler still
    stops at the first, failed call. *)
Example proxy_does_not_retry :
  pagasa_proxy Sample.get_proxy Sample.net_flaky Sample.fresh
  = (Py.Returns error_reply,
     logged (sent Sample.fresh upstream_request)
       (FString "Proxy error: " (Py.HTTPError_ 503 "Service Unavailable"))).
Proof. reflexivity. Qed.

(** C4. The handler never raises: for every request, network and world it
    returns a reply, which is either the feed reply or the uniform error
    reply; and whenever the fetch, read and decode steps raise, the reply
    is the uniform error reply. *)
Theorem proxy_total
    (request : Syqlorix.request) (net : network) (w : World) :
  (exists ret,
     fst (pagasa_proxy request net w) = Py.Returns ret
     /\ (ret = error_reply \/ exists text, ret = feed_reply text))
  /\ (forall e,
        fst (fetch_read_decode net w) = Py.Raises e ->
        fst (pagasa_proxy request net w) = Py.Returns error_reply).
Proof.
  destruct (FeedFacts.fetch_dichotomy (net (length (outbound w))))
    as [Hfail | (st & reason & ct & raw & text & Hnet & Hst & Hdec)].
  - destruct (FeedFacts.proxy_failure request net w Hfail) as (e & _ & ->).
    split; [| intros; reflexivity].
    exists error_reply. split; [reflexivity | left; reflexivity].
  - rewrite (FeedFacts.proxy_success _ _ _ _ _ _ _ _ Hnet Hst Hdec).
    split.
    + exists (feed_reply text). split; [reflexivity |]. right. eauto.
    + intros e He. exfalso. revert He.
      unfold fetch_read_decode, mbind, M_bind, urlopen. rewrite Hnet.
      destruct (Z.leb_spec 200 st); [| lia].
      destruct (Z.ltb_spec st 300); [| lia].
      cbn [andb]. unfold read. cbn [resp_body].
      unfold mret, M_ret, decode_utf8. rewrite Hdec. discriminate.
Qed.

Lemma proxy_total_witness :
  fst (fetch_read_decode Sample.net_garbled Sample.fresh)
  = Py.Raises (Py.UnicodeDecodeError_ "utf-8" (xff :: Sample.feed_bytes))
  /\ fst (pagasa_proxy Sample.get_proxy Sample.net_garbled Sample.fresh)
     = Py.Returns error_reply.
Proof.
  split; [reflexivity |].
  apply (proj2 (proxy_total Sample.get_proxy Sample.net_garbled Sample.fresh)
           (Py.UnicodeDecodeError_ "utf-8" (xff :: Sample.feed_bytes))).
  reflexivity.
Defined.

(** C5. For every request, whatever its headers and query string, the page
    handler returns the one literal document, leaving the world as it was;
    served, that is status 200, content type text/html and the document as
    body.  The result is the same for any other request, network and
    world. *)
Theorem main_page_fixed_html
    (request : Syqlorix.request) (net : network) (w : World) :
  main_page request net w = (Py.Returns (Bare (VDocument page)), w)
  /\ respond (Bare (VDocument page))
     = {| status := 200;
          content_type := Some "text/html";
          body := VDocument page |}
  /\ (forall request' net' w',
        fst (main_page request' net' w') = fst (main_page request net w)).
Proof. repeat split. Qed.

(** C6. The route table built at import time holds exactly two entries,
    the root path bound to the page handler and the proxy path bound to
    the feed handler, and running either handler leaves the application
    object as it was. *)
Theorem route_table_static :
  routes doc
  = [("/", main_page_ref); ("/api/pagasa-proxy", pagasa_proxy_ref)]
  /\ length (routes doc) = 2%nat
  /\ (forall h request net w, app (snd (call h request net w)) = app w).
Proof.
  split; [reflexivity |]. split; [reflexivity |].
  intros [|] request net w; [reflexivity |]. cbn [call].
  destruct (FeedFacts.fetch_dichotomy (net (length (outbound w))))
    as [Hfail | (st & reason & ct & raw & text & Hnet & Hst & Hdec)].
  - destruct (FeedFacts.proxy_failure request net w Hfail) as (e & _ & ->).
    reflexivity.
  - rewrite (FeedFacts.proxy_success _ _ _ _ _ _ _ _ Hnet Hst Hdec).
    reflexivity.
Qed.

(** C7. Two requests whose outbound fetches meet the same outcome get the
    same reply, and the call each one sends upstream is the same: nothing
    in the inbound request, a caller-supplied URL included, reaches the
    fetch or the reply. *)
Theorem proxy_ignores_request
    (request1 request2 : Syqlorix.request) (net1 net2 : network)
    (w1 w2 : World) :
  net1 (length (outbound w1)) = net2 (length (outbound w2)) ->
  fst (pagasa_proxy request1 net1 w1) = fst (pagasa_proxy request2 net2 w2)
  /\ last (outbound (snd (pagasa_proxy request1 net1 w1)))
     = last (outbound (snd (pagasa_proxy request2 net2 w2))).
Proof.
  intros Hsame.
  destruct (FeedFacts.fetch_dichotomy (net1 (length (outbound w1))))
    as [Hfail | (st & reason & ct & raw & text & Hnet & Hst & Hdec)].
  - destruct (FeedFacts.proxy_failure request1 net1 w1 Hfail)
      as (e1 & _ & ->).
    rewrite Hsame in Hfail.
    destruct (FeedFacts.proxy_failure request2 net2 w2 Hfail)
      as (e2 & _ & ->).
    cbn [fst snd logged sent outbound]. rewrite !last_snoc. eauto.
  - rewrite (FeedFacts.proxy_success _ _ _ _ _ _ _ _ Hnet Hst Hdec).
    rewrite Hsame in Hnet.
    rewrite (FeedFacts.proxy_success _ _ _ _ _ _ _ _ Hnet Hst Hdec).
    cbn [fst snd sent outbound]. rewrite !last_snoc. eauto.
Qed.

Lemma proxy_ignores_request_witness :
  Sample.net_ok (length (outbound Sample.fresh))
  = Sample.net_ok (length (outbound Sample.fresh))
  /\ fst (pagasa_proxy Sample.get_proxy Sample.net_ok Sample.fresh)
     = fst (pagasa_proxy Sample.get_proxy_steered Sample.net_ok Sample.fresh)
  /\ last (outbound
             (snd (pagasa_proxy Sample.get_proxy Sample.net_ok Sample.fresh)))
     = last (outbound
               (snd (pagasa_proxy Sample.get_proxy_steered Sample.net_ok
                       Sample.fresh))).
Proof.
  split; [reflexivity |].
  apply (proxy_ignores_request Sample.get_proxy Sample.get_proxy_steered
           Sample.net_ok Sample.net_ok Sample.fresh Sample.fresh).
  reflexivity.
Defined.

(** C8. Building the page cannot fail: for every request the page handler
    returns a document, never raises, and touches nothing in the world. *)
Theorem main_page_cannot_fail
    (request : Syqlorix.request) (net : network) (w : World) :
  (exists d, fst (main_page request net w) = Py.Returns (Bare (VDocument d)))
  /\ (forall e, fst (main_page request net w) <> Py.Raises e)
  /\ snd (main_page request net w) = w.
Proof.
  split; [exists page; reflexivity |]. split; [discriminate | reflexivity].
Qed.

(** C9. When the body the upstream sent is not UTF-8, the handler returns
    the fixed 500 error reply and no reply that carries the body, whatever
    the upstream status was. *)
Theorem proxy_requires_utf8
    (request : Syqlorix.request) (net : network) (w : World)
    (st : Z) (reason ct : string) (raw : bytes) :
  net (length (outbound w)) = Responded st reason ct (ReadOk raw) ->
  Utf8.decode raw = None ->
  fst (pagasa_proxy request net w)
  = Py.Returns (Pair (VDict {[ "error" := "Failed to fetch PAGASA data" ]}) 500)
  /\ (forall v s hdrs,
        fst (pagasa_proxy request net w) <> Py.Returns (Triple v s hdrs)).
Proof.
  intros Hnet Hdec.
  assert (fetch_fails (net (length (outbound w)))) as Hfail.
  { rewrite Hnet. apply fails_decode. assumption. }
  destruct (FeedFacts.proxy_failure request net w Hfail) as (e & _ & ->).
  split; [reflexivity | discriminate].
Qed.

Lemma proxy_requires_utf8_witness :
  Sample.net_garbled (length (outbound Sample.fresh))
  = Responded 200 "OK" "application/atom+xml"
      (ReadOk (xff :: Sample.feed_bytes))
  /\ Utf8.decode (xff :: Sample.feed_bytes) = None
  /\ fst (pagasa_proxy Sample.get_proxy Sample.net_garbled Sample.fresh)
     = Py.Returns
         (Pair (VDict {[ "error" := "Failed to fetch PAGASA data" ]}) 500)
  /\ (forall v s hdrs,
        fst (pagasa_proxy Sample.get_proxy Sample.net_garbled Sample.fresh)
        <> Py.Returns (Triple v s hdrs)).
Proof.
  split; [reflexivity |]. split; [reflexivity |].
  apply (proxy_requires_utf8 Sample.get_proxy Sample.net_garbled Sample.fresh
           200 "OK" "application/atom+xml" (xff :: Sample.feed_bytes));
    reflexivity.
Defined.

(** C10. Every reply of the feed handler has one of two shapes.  If the
    fetch failed it is a pair of a body and status 500, with no headers
    component, so that no content type is declared by the handler; if not,
    it is a triple of a body, status 200 and a headers dict holding
    Content-Type. *)
Theorem proxy_reply_shapes
    (request : Syqlorix.request) (net : network) (w : World) :
  exists ret,
    fst (pagasa_proxy request net w) = Py.Returns ret
    /\ ((fetch_fails (net (length (outbound w)))
         /\ status_of ret = Some 500
         /\ headers_of ret = None
         /\ content_type (respond ret) = None)
        \/ (~ fetch_fails (net (length (outbound w)))
            /\ status_of ret = Some 200
            /\ headers_of ret
               = Some {[ "Content-Type" := "application/atom+xml" ]}
            /\ content_type (respond ret) = Some "application/atom+xml")).
Proof.
  destruct (FeedFacts.fetch_dichotomy (net (length (outbound w))))
    as [Hfail | (st & reason & ct & raw & text & Hnet & Hst & Hdec)].
  - destruct (FeedFacts.proxy_failure request net w Hfail) as (e & _ & ->).
    exists error_reply. split; [reflexivity |]. left. repeat split.
    assumption.
  - rewrite (FeedFacts.proxy_success _ _ _ _ _ _ _ _ Hnet Hst Hdec).
    exists (feed_reply text). split; [reflexivity |]. right.
    split; [| repeat split].
    rewrite Hnet. eapply fetch_ok_not_fails; eassumption.
Qed.

(** * Further facts *)

(** ** UTF-8: what is encoded decodes back to the same text *)

Module Utf8More.
Import Utf8 Utf8Facts.

Local Ltac euclid := Z.to_euclidean_division_equations; lia.

Lemma Z_of_byte_of_Z z : 0 <= z < 256 -> Z_of_byte (byte_of_Z z) = z.
Proof.
  intros Hz. unfold byte_of_Z, Z_of_byte.
  rewrite Z.mod_small by lia.
  destruct (Byte.of_N (Z.to_N z)) as [c |] eqn:Hc.
  - apply Byte.to_of_N in Hc. rewrite Hc. lia.
  - apply Byte.of_N_None_iff in Hc. lia.
Qed.

Lemma is_cont_byte c :
  0x80 <= Z_of_byte c < 0xC0 -> is_cont (Z_of_byte c) = true.
Proof.
  destruct c; vm_compute; intros [Hlo Hhi];
    first [reflexivity | discriminate Hhi | exfalso; apply Hlo; reflexivity].
Qed.

Lemma is_cont_intro z : 0x80 <= z < 0xC0 -> is_cont z = true.
Proof.
  intros Hz. rewrite <- (Z_of_byte_of_Z z) by lia.
  apply is_cont_byte. rewrite Z_of_byte_of_Z; lia.
Qed.

Lemma decode_encode_cp (ch : Z) (rest : bytes) :
  scalar ch -> decode (encode_cp ch ++ rest) = cons ch <$> decode rest.
Proof.
  intros Hs. unfold scalar in Hs.
  destruct (Z.ltb_spec ch 0x80) as [H1 | H1].
  { rewrite encode_cp_1 by lia. cbn [List.app decode]. cbv zeta.
    rewrite Z_of_byte_of_Z by lia.
    destruct (Z.ltb_spec ch 0x80); [reflexivity | lia]. }
  destruct (Z.ltb_spec ch 0x800) as [H2 | H2].
  { rewrite encode_cp_2 by lia. cbn [List.app decode]. cbv zeta.
    rewrite !Z_of_byte_of_Z by euclid.
    destruct (Z.ltb_spec (0xC0 + ch / 64) 0x80); [euclid |].
    destruct (Z.ltb_spec (0xC0 + ch / 64) 0xC2); [euclid |].
    destruct (Z.ltb_spec (0xC0 + ch / 64) 0xE0); [| euclid].
    rewrite is_cont_intro by euclid.
    rewrite cp2_val by euclid.
    do 2 f_equal. euclid. }
  destruct (Z.ltb_spec ch 0x10000) as [H3 | H3].
  { rewrite encode_cp_3 by lia. cbn [List.app decode]. cbv zeta.
    rewrite !Z_of_byte_of_Z by euclid.
    destruct (Z.ltb_spec (0xE0 + ch / 4096) 0x80); [euclid |].
    destruct (Z.ltb_spec (0xE0 + ch / 4096) 0xC2); [euclid |].
    destruct (Z.ltb_spec (0xE0 + ch / 4096) 0xE0); [euclid |].
    destruct (Z.ltb_spec (0xE0 + ch / 4096) 0xF0); [| euclid].
    assert (second_of_3 (0xE0 + ch / 4096) (0x80 + (ch / 64) mod 64) = true)
      as ->.
    { unfold second_of_3. rewrite is_cont_intro by euclid.
      destruct (Z.eqb_spec (0xE0 + ch / 4096) 0xE0);
        destruct (Z.eqb_spec (0xE0 + ch / 4096) 0xED);
        cbn [andb]; rewrite ?andb_true_r;
        first [exfalso; lia | reflexivity | apply Z.leb_le; euclid | apply Z.ltb_lt; euclid]. }
    rewrite is_cont_intro by euclid. cbn [andb].
    rewrite cp3_val by euclid.
    do 2 f_equal. euclid. }
  rewrite encode_cp_4 by lia. cbn [List.app decode]. cbv zeta.
  rewrite !Z_of_byte_of_Z by euclid.
  destruct (Z.ltb_spec (0xF0 + ch / 262144) 0x80); [euclid |].
  destruct (Z.ltb_spec (0xF0 + ch / 262144) 0xC2); [euclid |].
  destruct (Z.ltb_spec (0xF0 + ch / 262144) 0xE0); [euclid |].
  destruct (Z.ltb_spec (0xF0 + ch / 262144) 0xF0); [euclid |].
  destruct (Z.ltb_spec (0xF0 + ch / 262144) 0xF5); [| euclid].
  assert (second_of_4 (0xF0 + ch / 262144) (0x80 + (ch / 4096) mod 64) = true)
    as ->.
  { unfold second_of_4. rewrite is_cont_intro by euclid.
    destruct (Z.eqb_spec (0xF0 + ch / 262144) 0xF0);
      destruct (Z.eqb_spec (0xF0 + ch / 262144) 0xF4);
      cbn [andb]; rewrite ?andb_true_r;
      first [exfalso; lia | reflexivity | apply Z.leb_le; euclid | apply Z.ltb_lt; euclid]. }
  rewrite !is_cont_intro by euclid. cbn [andb].
  rewrite cp4_val by euclid.
  do 2 f_equal. euclid.
Qed.

Lemma encode_decode (text : str) :
  Forall scalar text -> decode (encode text) = Some text.
Proof.
  induction 1 as [| ch text Hch _ IH]; [reflexivity |].
  rewrite encode_cons, decode_encode_cp, IH by assumption. reflexivity.
Qed.

End Utf8More.

(** ** The feed handler: effects and inversion *)

Module FeedMore.
Import Dom Urllib Syqlorix Run App Feed FeedFacts.

(** What a run of the feed handler leaves behind, in both cases. *)
Lemma proxy_effects request net w :
  exists ret lines,
    pagasa_proxy request net w
    = (Py.Returns ret,
       {| app := app w;
          outbound := outbound w ++ [upstream_request];
          stdout := stdout w ++ lines |})
    /\ (length lines <= 1)%nat.
Proof.
  destruct (fetch_dichotomy (net (length (outbound w))))
    as [Hfail | (st & reason & ct & raw & text & Hnet & Hst & Hdec)].
  - destruct (proxy_failure request net w Hfail) as (e & _ & ->).
    exists error_reply, [FString "Proxy error: " e]. split; [reflexivity |].
    simpl. lia.
  - rewrite (proxy_success _ _ _ _ _ _ _ _ Hnet Hst Hdec).
    exists (feed_reply text), []. unfold sent. rewrite app_nil_r.
    split; [reflexivity | simpl; lia].
Qed.

(** The reply is a function of the answer the network gives to this call. *)
Lemma proxy_reply_determined request1 request2 net1 net2 w1 w2 :
  net1 (length (outbound w1)) = net2 (length (outbound w2)) ->
  fst (pagasa_proxy request1 net1 w1) = fst (pagasa_proxy request2 net2 w2).
Proof.
  intros Hsame.
  destruct (fetch_dichotomy (net1 (length (outbound w1))))
    as [Hfail | (st & reason & ct & raw & text & Hnet & Hst & Hdec)].
  - destruct (proxy_failure request1 net1 w1 Hfail) as (e1 & _ & ->).
    rewrite Hsame in Hfail.
    destruct (proxy_failure request2 net2 w2 Hfail) as (e2 & _ & ->).
    reflexivity.
  - rewrite (proxy_success _ _ _ _ _ _ _ _ Hnet Hst Hdec).
    rewrite Hsame in Hnet.
    rewrite (proxy_success _ _ _ _ _ _ _ _ Hnet Hst Hdec).
    reflexivity.
Qed.

(** A reply with a headers component can only come from a fetch that went
    through. *)
Lemma proxy_success_inv request net w v s hdrs :
  fst (pagasa_proxy request net w) = Py.Returns (Triple v s hdrs) ->
  exists st reason ct raw text,
    net (length (outbound w)) = Responded st reason ct (ReadOk raw)
    /\ 200 <= st < 300
    /\ Utf8.decode raw = Some text
    /\ v = VStr text.
Proof.
  intros Hret.
  destruct (fetch_dichotomy (net (length (outbound w))))
    as [Hfail | (st & reason & ct & raw & text & Hnet & Hst & Hdec)].
  - destruct (proxy_failure request net w Hfail) as (e & _ & Hrun).
    rewrite Hrun in Hret. discriminate.
  - rewrite (proxy_success _ _ _ _ _ _ _ _ Hnet Hst Hdec) in Hret.
    injection Hret as <- _ _.
    exists st, reason, ct, raw, text. auto.
Qed.

End FeedMore.

(** ** One handler call, as a step of a sequence *)

Module ServeFacts.
Import Serve.

Lemma call_effects h request net w :
  exists ret lines,
    call h request net w
    = (Py.Returns ret,
       {| app := app w;
          outbound := outbound w
                      ++ replicate (feed_jobs [(h, request)]) upstream_request;
          stdout := stdout w ++ lines |})
    /\ (length lines <= feed_jobs [(h, request)])%nat.
Proof.
  destruct h; cbn [call].
  - exists (Bare (VDocument page)), []. cbn. rewrite !app_nil_r.
    destruct w; split; [reflexivity | lia].
  - destruct (FeedMore.proxy_effects request net w)
      as (ret & lines & Hrun & Hlen).
    exists ret, lines. split; assumption.
Qed.

Lemma feed_jobs_cons job jobs :
  feed_jobs (job :: jobs) = (feed_jobs [job] + feed_jobs jobs)%nat.
Proof.
  unfold feed_jobs. rewrite !filter_cons, filter_nil.
  destruct (decide (job.1 = pagasa_proxy_ref)); reflexivity.
Qed.

End ServeFacts.

(** ** The page: every reference checked *)

Module PageFacts.
Import Dom App Query.

Lemma refs_ok_page : forallb (refs_ok (ids page)) (elements page) = true.
Proof. vm_compute. reflexivity. Qed.

End PageFacts.

(** * Further properties of the handlers *)

Import Query Serve.



(** X2. Every text made of Unicode scalar values gets through: when the
    upstream answers 2xx with the UTF-8 encoding of such a text, the
    handler relays exactly that text with status 200. *)
Theorem proxy_relays_every_text
    (request : Syqlorix.request) (net : network) (w : World)
    (st : Z) (reason ct : string) (text : str) :
  net (length (outbound w))
  = Responded st reason ct (ReadOk (Utf8.encode text)) ->
  200 <= st < 300 ->
  Forall Utf8.scalar text ->
  fst (pagasa_proxy request net w)
  = Py.Returns
      (Triple (VStr text) 200 {[ "Content-Type" := "application/atom+xml" ]}).
Proof.
  intros Hnet Hst Htext.
  rewrite (FeedFacts.proxy_success _ _ _ _ _ _ _ _ Hnet Hst
             (Utf8More.encode_decode text Htext)).
  reflexivity.
Qed.

Lemma proxy_relays_every_text_witness :
  (fun _ : nat =>
     Responded 206 "Partial Content" "text/plain"
       (ReadOk (Utf8.encode [60; 233; 8364; 127782])))
    (length (outbound Sample.fresh))
  = Responded 206 "Partial Content" "text/plain"
      (ReadOk (Utf8.encode [60; 233; 8364; 127782]))
  /\ 200 <= 206 < 300
  /\ Forall Utf8.scalar [60; 233; 8364; 127782]
  /\ fst (pagasa_proxy Sample.get_proxy
            (fun _ : nat =>
               Responded 206 "Partial Content" "text/plain"
                 (ReadOk (Utf8.encode [60; 233; 8364; 127782])))
            Sample.fresh)
     = Py.Returns
         (Triple (VStr [60; 233; 8364; 127782]) 200
            {[ "Content-Type" := "application/atom+xml" ]}).
Proof.
  assert (Forall Utf8.scalar [60; 233; 8364; 127782]) as Hscalar.
  { repeat (constructor; [unfold Utf8.scalar; lia |]). constructor. }
  split; [reflexivity |]. split; [lia |]. split; [exact Hscalar |].
  apply (proxy_relays_every_text Sample.get_proxy _ Sample.fresh
           206 "Partial Content" "text/plain" [60; 233; 8364; 127782]);
    [reflexivity | lia | exact Hscalar].
Defined.

(** X3. The relay loses nothing: two fetches whose bodies were both relayed
    as the same reply had the same body, octet for octet. *)
Theorem proxy_relay_injective
    (request1 request2 : Syqlorix.request) (net1 net2 : network)
    (w1 w2 : World) (st1 st2 : Z) (reason1 reason2 ct1 ct2 : string)
    (raw1 raw2 : bytes) (v : value) (s : Z) (hdrs : gmap string string) :
  net1 (length (outbound w1)) = Responded st1 reason1 ct1 (ReadOk raw1) ->
  net2 (length (outbound w2)) = Responded st2 reason2 ct2 (ReadOk raw2) ->
  fst (pagasa_proxy request1 net1 w1) = Py.Returns (Triple v s hdrs) ->
  fst (pagasa_proxy request2 net2 w2) = Py.Returns (Triple v s hdrs) ->
  raw1 = raw2.
Proof.
  intros Hnet1 Hnet2 Hret1 Hret2.
  apply FeedMore.proxy_success_inv in Hret1
    as (? & ? & ? & raw1' & text1 & Hn1 & _ & Hdec1 & ->).
  apply FeedMore.proxy_success_inv in Hret2
    as (? & ? & ? & raw2' & text2 & Hn2 & _ & Hdec2 & Hv).
  rewrite Hnet1 in Hn1. rewrite Hnet2 in Hn2.
  injection Hn1 as _ _ _ <-. injection Hn2 as _ _ _ <-.
  injection Hv as <-.
  rewrite <- (Utf8Facts.decode_encode _ _ Hdec1).
  apply Utf8Facts.decode_encode. assumption.
Qed.

Lemma proxy_relay_injective_witness :
  Sample.net_ok (length (outbound Sample.fresh))
  = Responded 200 "OK" "text/plain" (ReadOk Sample.feed_bytes)
  /\ Sample.net_flaky (length (outbound (sent Sample.fresh upstream_request)))
     = Responded 200 "OK" "application/atom+xml" (ReadOk Sample.feed_bytes)
  /\ fst (pagasa_proxy Sample.get_proxy Sample.net_ok Sample.fresh)
     = Py.Returns (feed_reply Sample.feed_text)
  /\ fst (pagasa_proxy Sample.get_proxy_steered Sample.net_flaky
            (sent Sample.fresh upstream_request))
     = Py.Returns (feed_reply Sample.feed_text)
  /\ Sample.feed_bytes = Sample.feed_bytes.
Proof.
  split; [reflexivity |]. split; [reflexivity |].
  split; [reflexivity |]. split; [reflexivity |].
  apply (proxy_relay_injective Sample.get_proxy Sample.get_proxy_steered
           Sample.net_ok Sample.net_flaky
           Sample.fresh (sent Sample.fresh upstream_request)
           200 200 "OK" "OK" "text/plain" "application/atom+xml"
           Sample.feed_bytes Sample.feed_bytes
           (VStr Sample.feed_text) 200
           {[ "Content-Type" := "application/atom+xml" ]});
    reflexivity.
Defined.

(** X4. Whatever text the handler relays consists of Unicode scalar values
    only (no surrogate, nothing above U+10FFFF), so it can be encoded as
    UTF-8 again and decodes back to itself. *)
Theorem proxy_relays_scalars
    (request : Syqlorix.request) (net : network) (w : World)
    (text : str) (s : Z) (hdrs : gmap string string) :
  fst (pagasa_proxy request net w) = Py.Returns (Triple (VStr text) s hdrs) ->
  Forall Utf8.scalar text
  /\ Utf8.decode (Utf8.encode text) = Some text.
Proof.
  intros Hret.
  apply FeedMore.proxy_success_inv in Hret
    as (? & ? & ? & raw & text' & _ & _ & Hdec & Hv).
  injection Hv as ->.
  pose proof (Utf8Facts.decode_scalar _ _ Hdec) as Hsc.
  split; [assumption | apply Utf8More.encode_decode; assumption].
Qed.

Lemma proxy_relays_scalars_witness :
  fst (pagasa_proxy Sample.get_proxy Sample.net_ok Sample.fresh)
  = Py.Returns
      (Triple (VStr Sample.feed_text) 200
         {[ "Content-Type" := "application/atom+xml" ]})
  /\ Forall Utf8.scalar Sample.feed_text
  /\ Utf8.decode (Utf8.encode Sample.feed_text) = Some Sample.feed_text.
Proof.
  split; [reflexivity |].
  apply (proxy_relays_scalars Sample.get_proxy Sample.net_ok Sample.fresh
           Sample.feed_text 200
           {[ "Content-Type" := "application/atom+xml" ]}).
  reflexivity.
Defined.

(** X5. The handler carries nothing over from one request to the next: the
    reply to a second request is the reply a first request would get from
    the network's next answer, whether the earlier fetch succeeded or
    failed (no cached feed, no remembered failure). *)
Theorem proxy_keeps_no_state
    (request1 request2 : Syqlorix.request) (net : network) (w : World) :
  fst (pagasa_proxy request2 net (snd (pagasa_proxy request1 net w)))
  = fst (pagasa_proxy request2 (fun _ => net (S (length (outbound w)))) w).
Proof.
  apply FeedMore.proxy_reply_determined.
  destruct (FeedMore.proxy_effects request1 net w) as (ret & lines & -> & _).
  cbn [snd outbound]. rewrite length_app. cbn [length].
  f_equal. lia.
Qed.

(** X6. Serving any sequence of requests, each by the handler it is routed
    to, never raises and yields one reply per request; it makes exactly one
    upstream call, always the same fixed one, per request to the feed
    handler and none for the page; it prints at most one line per feed
    request; and it leaves the application object untouched. *)
Theorem serve_all_effects
    (jobs : list (handler_ref * Syqlorix.request)) (net : network)
    (w : World) :
  exists replies lines,
    serve_all jobs net w
    = (Py.Returns replies,
       {| app := app w;
          outbound := outbound w ++ replicate (feed_jobs jobs) upstream_request;
          stdout := stdout w ++ lines |})
    /\ length replies = length jobs
    /\ (length lines <= feed_jobs jobs)%nat.
Proof.
  revert w. induction jobs as [| [h request] jobs IH]; intros w.
  - exists [], []. cbn. rewrite !app_nil_r. destruct w. auto.
  - cbn [serve_all]. unfold mbind, M_bind.
    destruct (ServeFacts.call_effects h request net w)
      as (ret & lines1 & -> & Hlen1).
    match goal with
    | |- context [serve_all jobs net ?w1] =>
        destruct (IH w1) as (replies & lines2 & -> & Hrep & Hlen2)
    end.
    exists (ret :: replies), (lines1 ++ lines2).
    cbn [app outbound stdout mret M_ret].
    rewrite (ServeFacts.feed_jobs_cons (h, request) jobs).
    rewrite replicate_add, <- !app_assoc.
    split; [reflexivity |].
    split; [cbn; congruence |].
    rewrite length_app. lia.
Qed.

(** X7. No two elements of the page carry the same id. *)
Theorem page_ids_unique : NoDup (ids page).
Proof. apply (bool_decide_unpack _). vm_compute. exact I. Qed.

(** X8. Inside the page every reference finds its target: the value of a
    for_, aria_controls or aria_labelledby attribute, and the name in an
    href of the form #name, is the id of some element of the page. *)
Theorem page_references_resolve (e : Node) :
  e ∈ elements page ->
  (forall key v, key ∈ idref_keys -> attr key e = Some v -> v ∈ ids page)
  /\ (forall href name,
        attr "href" e = Some href -> fragment href = Some name ->
        name ∈ ids page).
Proof.
  intros He.
  pose proof PageFacts.refs_ok_page as Hall.
  rewrite forallb_forall in Hall.
  apply list_elem_of_In in He. specialize (Hall e He).
  unfold refs_ok in Hall. apply andb_true_iff in Hall as [Hk Hh].
  split.
  - intros key v Hkey Hattr. rewrite forallb_forall in Hk.
    apply list_elem_of_In in Hkey. specialize (Hk key Hkey).
    rewrite Hattr in Hk. apply bool_decide_eq_true in Hk. exact Hk.
  - intros href name Hattr Hfrag. rewrite Hattr, Hfrag in Hh.
    apply bool_decide_eq_true in Hh. exact Hh.
Qed.

Lemma page_references_resolve_witness :
  Element "label"
    [Element "input_" []
       [("type", AStr "checkbox"); ("id", AStr "dark-mode-toggle")];
     Element "span" [] [("class_", AStr "slider round")]]
    [("class_", AStr "theme-switch"); ("for_", AStr "dark-mode-toggle")]
  ∈ elements page
  /\ "for_" ∈ idref_keys
  /\ attr "for_"
       (Element "label"
          [Element "input_" []
             [("type", AStr "checkbox"); ("id", AStr "dark-mode-toggle")];
           Element "span" [] [("class_", AStr "slider round")]]
          [("class_", AStr "theme-switch"); ("for_", AStr "dark-mode-toggle")])
     = Some "dark-mode-toggle"
  /\ "dark-mode-toggle" ∈ ids page.
Proof.
  assert (Element "label"
            [Element "input_" []
               [("type", AStr "checkbox"); ("id", AStr "dark-mode-toggle")];
             Element "span" [] [("class_", AStr "slider round")]]
            [("class_", AStr "theme-switch");
             ("for_", AStr "dark-mode-toggle")]
          ∈ elements page) as Hin.
  { apply (list_elem_of_lookup_2 _ 71%nat). reflexivity. }
  assert ("for_" ∈ idref_keys) as Hkey.
  { apply (bool_decide_unpack _). vm_compute. exact I. }
  split; [exact Hin |]. split; [exact Hkey |]. split; [reflexivity |].
  apply (proj1 (page_references_resolve _ Hin) "for_" "dark-mode-toggle");
    [exact Hkey | reflexivity].
Defined.
